(** * EchoPrint AI: the target detection engine

    A shallow embedding of [src/lib/detection/target-detector.ts] and of the
    profile catalog [src/lib/targets/profiles.ts], followed by the properties
    of the scoring, surfacing, ranking and aggregation logic.

    Conventions of the embedding:
    - a JavaScript string is a [string] holding its UTF-8 bytes;
    - a JavaScript number that is an array length, or a sum or product of
      small integers, is a [Z] (doubles represent them exactly);
    - the one computation that leaves the integers, the confidence percentage
      [Math.round((active / total) * 100)], is evaluated in IEEE 754 binary64
      with the operations of [SpecFloat];
    - an array built by a loop of [push] is the list of the pushed values. *)

From Stdlib Require Import List String Ascii ZArith Lia Bool.
From Stdlib Require Import Sorting.Sorted Sorting.Permutation.
From Stdlib Require Import Floats.SpecFloat.
Import ListNotations.

Open Scope string_scope.
Open Scope Z_scope.

(* ================================================================== *)
(** ** The fragment of JavaScript the engine relies on *)
(* ================================================================== *)

Module JS.

(** [hay.includes(needle)] *)
Fixpoint includes (hay needle : string) : bool :=
  if String.prefix needle hay then true
  else match hay with
       | EmptyString => false
       | String _ rest => includes rest needle
       end.

(** [arr.join(sep)] *)
Definition join (sep : string) (arr : list string) : string :=
  String.concat sep arr.

(** [arr.slice(0, n)] *)
Definition slice0 {A} (n : nat) (arr : list A) : list A := firstn n arr.

(** [arr.some(p)] *)
Definition some {A} (p : A -> bool) (arr : list A) : bool := existsb p arr.

(** [arr.find(p)] *)
Definition find {A} (p : A -> bool) (arr : list A) : option A := List.find p arr.

(** [arr.length] *)
Definition length {A} (arr : list A) : Z := Z.of_nat (List.length arr).

(** [arr.filter(p).length], which the scorer uses four times. *)
Definition count {A} (p : A -> bool) (arr : list A) : Z := length (filter p arr).

(** [arr.sort(cmp)].  ECMAScript (2019 and later) requires the sort to be
    stable; for a consistent comparator the result is then determined, and
    it is the one a stable insertion sort computes: an element is placed
    before the elements to its right that do not have to precede it
    ([cmp x y <= 0]). *)
Section Sort.
Context {A : Type} (cmp : A -> A -> Z).

Fixpoint insert (x : A) (l : list A) : list A :=
    match l with
    | [] => [x]
    | y :: l' => if cmp x y <=? 0 then x :: y :: l' else y :: insert x l'
    end.

Definition sort (l : list A) : list A := fold_right insert [] l.
End Sort.

(** *** Numbers that are not integers: IEEE 754 binary64 *)

Definition prec : Z := 53.
Definition emax : Z := 1024.

Definition Number := spec_float.

(** The double nearest to an integer (exact below 2^53). *)
Definition of_Z (n : Z) : Number := binary_normalize prec emax n 0 false.

Definition div (x y : Number) : Number := SFdiv prec emax x y.
Definition mul (x y : Number) : Number := SFmul prec emax x y.

(** [Math.round(x)]: the integer nearest to [x], a tie going towards
    +infinity, that is [floor (x + 1/2)] computed exactly.  The engine only
    rounds a finite quotient; NaN and the infinities (which [Math.round]
    returns unchanged) have no integer value and are given 0 here. *)
Definition Math_round (x : Number) : Z :=
  match x with
  | S754_finite s m e =>
      let n := if s then Zneg m else Zpos m in
      match e with
      | Zneg k => (2 * n + 2 ^ Zpos k) / 2 ^ (Zpos k + 1)
      | _ => n * 2 ^ e
      end
  | _ => 0
  end.

(** [Math.min(a, b)] on integers *)
Definition Math_min (a b : Z) : Z := Z.min a b.

End JS.

(* ================================================================== *)
(** ** Data model: [targets/profiles.ts] *)
(* ================================================================== *)

Inductive RiskLevel := LOW | MEDIUM | HIGH | CRITICAL.

Inductive Category := ecommerce | social | adtech | analytics | finance | government.

Record TrackingInfra := {
  primaryDomains : list string;
  thirdPartyTrackers : list string;
  jsLibraries : list string
}.

Record FingerprintMethods := {
  canvas : bool;
  webgl : bool;
  audio : bool;
  fonts : bool;
  sensors : bool;
  battery : bool;
  webrtc : bool;
  behavioral : bool
}.

Record Vulnerability := {
  vuln_id : string;
  vuln_description : string;
  vuln_status : string
}.

Record Countermeasures := {
  blockDomains : bool;
  spoofFingerprint : bool;
  clearCookies : bool;
  useContainer : bool
}.

Record TargetProfile := {
  id : string;
  name : string;
  description : string;
  riskLevel : RiskLevel;
  category : Category;
  trackingInfra : TrackingInfra;
  fingerprintMethods : FingerprintMethods;
  storageKeys : list string;
  apiEndpoints : list string;
  detectionTriggers : list string;
  knownVulnerabilities : list Vulnerability;
  countermeasures : Countermeasures;
  regionSpecific : option (list string);
  dataTransferDestination : option (list string)
}.

Definition RiskLevel_eqb (a b : RiskLevel) : bool :=
  match a, b with
  | LOW, LOW | MEDIUM, MEDIUM | HIGH, HIGH | CRITICAL, CRITICAL => true
  | _, _ => false
  end.

(* ================================================================== *)
(** ** The catalog of [targets/profiles.ts] *)
(* ================================================================== *)

Definition AliExpressProfile : TargetProfile := {|
  id := "aliexpress";
  name := "AliExpress (EU/Global)";
  description := "Крупнейший маркетплейс Alibaba Group с агрессивным трекингом";
  riskLevel := CRITICAL;
  category := ecommerce;
  trackingInfra := {|
    primaryDomains :=
      ["g.alicdn.com"; "log.mmstat.com"; "atanx.alicdn.com";
       "gtd.alicdn.com"; "acjs.aliyun.com"; "ynuf.alipay.com";
       "aeis.alicdn.com"; "afcs.alicdn.com"];
    thirdPartyTrackers :=
      ["criteo.com"; "appsflyer.com"; "google-analytics.com"; "facebook.com";
       "rtbhouse.com"; "moloco.com"; "remerge.io"; "tiktok.com";
       "taboola.com"; "outbrain.com"];
    jsLibraries :=
      ["aplus_v2.js"; "aplus_cplugin.js"; "aplus_plugin_aefront/index.js";
       "sufei_data/index.js"; "AWSC/awsc.js"; "ac.js"; "retcode.js"]
  |};
  fingerprintMethods := {|
    canvas := true;
    webgl := true;
    audio := true;
    fonts := true;
    sensors := false;
    battery := true;
    webrtc := false;
    behavioral := true
  |};
  storageKeys :=
    ["cna"; "isg"; "xman_f"; "xman_t"; "xman_us_f"; "xman_us_t";
     "ali_apache_id"; "ali_apache_track"; "ali_beacon_id"; "x5sec";
     "x5secdata"; "baxia_sec_cookie"; "sgcookie"; "JSESSIONID";
     "XSRF-TOKEN"; "acs_usuc_t"; "_m_h5_tk"; "_m_h5_tk_enc"; "AB_STG";
     "AB_DATA_TRACK"; "AB_ALG"; "ali_ab"; "intl_locale";
     "intl_common_forever"; "aep_common_f"; "aep_usuc_f"];
  apiEndpoints :=
    ["https://log.mmstat.com/eg.js";
     "https://ynuf.alipay.com/service/collect.json";
     "https://gtd.alicdn.com/tb/log";
     "https://acs.m.taobao.com/h5/mtop.common.gettimestamp";
     "https://h5api.m.taobao.com/h5/mtop.aliexpress.address.renderweb"];
  detectionTriggers :=
    ["Блокировка aplus_v2.js"; "Отключение Canvas/WebGL API";
     "Использование Tor/Mullvad Browser"; "Подмена User-Agent";
     "Обнаружение VM (SwiftShader и др.)";
     "AdBlock/UBlock с фильтрами alicdn.com"];
  knownVulnerabilities :=
    [{| vuln_id := "CVE-2023-36025";
        vuln_description := "Session tokens via insecure WebView";
        vuln_status := "Patched" |};
     {| vuln_id := "GDPR-2024-001";
        vuln_description := "Unlawful data transfers to China (noyb complaint)";
        vuln_status := "Under Investigation" |};
     {| vuln_id := "PRIVACY-2024";
        vuln_description := "Cross-site tracking without consent";
        vuln_status := "Known Issue" |}];
  countermeasures := {|
    blockDomains := true;
    spoofFingerprint := true;
    clearCookies := true;
    useContainer := true
  |};
  regionSpecific := Some ["CN"; "RU"; "BR"; "ES"; "FR"; "DE"; "IT"; "NL"];
  dataTransferDestination := Some ["China"; "Singapore"; "US"]
|}.

Definition AmazonProfile : TargetProfile := {|
  id := "amazon";
  name := "Amazon";
  description := "Глобальный маркетплейс с комплексным трекингом поведения";
  riskLevel := HIGH;
  category := ecommerce;
  trackingInfra := {|
    primaryDomains :=
      ["amazon.com"; "amazon-adsystem.com"; "amazonaws.com";
       "cloudfront.net"; "assoc-amazon.com"];
    thirdPartyTrackers :=
      ["doubleclick.net"; "google-analytics.com"; "facebook.com";
       "criteo.com"; "advertising.com"];
    jsLibraries :=
      ["amazon-cognito-identity.min.js"; "amazon-login.js"; "apex.js";
       "ammers.js"]
  |};
  fingerprintMethods := {|
    canvas := true;
    webgl := true;
    audio := false;
    fonts := true;
    sensors := false;
    battery := false;
    webrtc := false;
    behavioral := true
  |};
  storageKeys :=
    ["session-id"; "session-id-time"; "ubid-main"; "ubid-tsv"; "x-main";
     "at-main"; "sess-at-main"; "csrfToken"; "apay-session-id";
     "apay-device-id"];
  apiEndpoints :=
    ["https://www.amazon.com/gp/navigation/dynamic/ recurse.html";
     "https://completion.amazon.com/api/2017/suggestions"];
  detectionTriggers :=
    ["Отключение Amazon-ADSystem"; "Подмена Accept-Language";
     "Блокировка cookie session-id"];
  knownVulnerabilities :=
    [{| vuln_id := "PRIVACY-2023";
        vuln_description := "Cross-device tracking without explicit consent";
        vuln_status := "Known Issue" |}];
  countermeasures := {|
    blockDomains := true;
    spoofFingerprint := false;
    clearCookies := true;
    useContainer := false
  |};
  regionSpecific := Some ["US"; "UK"; "DE"; "FR"; "IT"; "ES"; "JP"; "IN"];
  dataTransferDestination := Some ["US"; "EU"; "UK"]
|}.

Definition FacebookProfile : TargetProfile := {|
  id := "facebook";
  name := "Facebook / Meta";
  description := "Социальная сеть с тотальным отслеживанием";
  riskLevel := CRITICAL;
  category := social;
  trackingInfra := {|
    primaryDomains :=
      ["facebook.com"; "fbcdn.net"; "facebook.net"; "fb.com";
       "messenger.com"; "instagram.com"; "whatsapp.com"];
    thirdPartyTrackers :=
      ["doubleclick.net"; "google-analytics.com"; "googleadservices.com";
       "bing.com"];
    jsLibraries :=
      ["fbevents.js"; "connect.facebook.net"; "recaptcha__en.js";
       "detectproxy.js"]
  |};
  fingerprintMethods := {|
    canvas := true;
    webgl := true;
    audio := true;
    fonts := true;
    sensors := false;
    battery := false;
    webrtc := true;
    behavioral := true
  |};
  storageKeys :=
    ["fr"; "datr"; "sb"; "c_user"; "xs"; "wd"; "dpr"; "presence"; "locale";
     "reg_ext_ref"; "reg_fb_ref"];
  apiEndpoints :=
    ["https://graph.facebook.com/"; "https://www.facebook.com/ajax/bz";
     "https://www.facebook.com/tr/"];
  detectionTriggers :=
    ["Блокировка fbevents.js"; "Отключение Facebook Pixel";
     "Использование Facebook Container"; "Очистка datr cookie"];
  knownVulnerabilities :=
    [{| vuln_id := "GDPR-2021-IRISH";
        vuln_description := "Illegal processing of sensitive data";
        vuln_status := "Fined €1.2B" |};
     {| vuln_id := "PRIVACY-2023";
        vuln_description := "Shadow profiles of non-users";
        vuln_status := "Ongoing Investigation" |}];
  countermeasures := {|
    blockDomains := true;
    spoofFingerprint := true;
    clearCookies := true;
    useContainer := true
  |};
  regionSpecific := None;
  dataTransferDestination := Some ["US"; "Ireland"; "Singapore"]
|}.

Definition GoogleProfile : TargetProfile := {|
  id := "google";
  name := "Google";
  description := "Поисковик с комплексным трекингом всей экосистемы";
  riskLevel := CRITICAL;
  category := analytics;
  trackingInfra := {|
    primaryDomains :=
      ["google.com"; "google-analytics.com"; "googletagmanager.com";
       "googleadservices.com"; "googlesyndication.com"; "doubleclick.net";
       "gstatic.com"; "youtube.com"];
    thirdPartyTrackers :=
      [];
    jsLibraries :=
      ["analytics.js"; "gtag.js"; "gtm.js"; "recaptcha__en.js"; "cbt.js"]
  |};
  fingerprintMethods := {|
    canvas := true;
    webgl := true;
    audio := true;
    fonts := true;
    sensors := false;
    battery := false;
    webrtc := false;
    behavioral := true
  |};
  storageKeys :=
    ["_ga"; "_gid"; "_gat"; "__utma"; "__utmb"; "__utmc"; "__utmz"; "SID";
     "HSID"; "SSID"; "APISID"; "SAPISID"; "NID"; "1P_JAR"];
  apiEndpoints :=
    ["https://www.google-analytics.com/collect";
     "https://www.googletagmanager.com/gtm.js";
     "https://www.google.com/gen_204"];
  detectionTriggers :=
    ["Блокировка Google Analytics"; "Отключение GA cookies";
     "Использование Privacy Badger"; "Установка Optimize extension"];
  knownVulnerabilities :=
    [{| vuln_id := "GDPR-2022-FRANCE";
        vuln_description := "Illegal cookie consent implementation";
        vuln_status := "Fined €150M" |}];
  countermeasures := {|
    blockDomains := true;
    spoofFingerprint := false;
    clearCookies := true;
    useContainer := false
  |};
  regionSpecific := None;
  dataTransferDestination := Some ["US"; "EU"; "Global"]
|}.

Definition TikTokProfile : TargetProfile := {|
  id := "tiktok";
  name := "TikTok";
  description := "Социальная сеть с агрессивным поведенческим трекингом";
  riskLevel := CRITICAL;
  category := social;
  trackingInfra := {|
    primaryDomains :=
      ["tiktok.com"; "tiktokv.com"; "tiktokcdn.com"; "byteoversea.com";
       "bytedance.com"; "ibytedtos.com"];
    thirdPartyTrackers :=
      ["facebook.com"; "google-analytics.com"; "adjust.com"; "appsdt.com"];
    jsLibraries :=
      ["analytics.js"; "pixel.js"; "ttq.js"]
  |};
  fingerprintMethods := {|
    canvas := true;
    webgl := true;
    audio := true;
    fonts := true;
    sensors := true;
    battery := true;
    webrtc := false;
    behavioral := true
  |};
  storageKeys :=
    ["sid_tt"; "sid_guard"; "uid_tt"; "odin_tt"; "sessionid"; "tt_webid";
     "tt_webid_v2"];
  apiEndpoints :=
    ["https://m.tiktok.com/api/"; "https://web.tiktok.com/api/"];
  detectionTriggers :=
    ["Блокировка ttq.js"; "Отключение clipboard access";
     "Блокировка sensors API"];
  knownVulnerabilities :=
    [{| vuln_id := "PRIVACY-2024";
        vuln_description := "Clipboard snooping";
        vuln_status := "Patched" |};
     {| vuln_id := "GDPR-2023";
        vuln_description := "Data transfers to China";
        vuln_status := "Under Investigation" |}];
  countermeasures := {|
    blockDomains := true;
    spoofFingerprint := true;
    clearCookies := true;
    useContainer := true
  |};
  regionSpecific := None;
  dataTransferDestination := Some ["China"; "Singapore"; "US"]
|}.

(** The registry, in registration order. *)
Definition ALL_TARGET_PROFILES : list TargetProfile :=
  [AliExpressProfile; AmazonProfile; FacebookProfile; GoogleProfile; TikTokProfile].

(* ================================================================== *)
(** ** Inputs of the engine *)
(* ================================================================== *)

(** [FingerprintData] is declared in [lib/types], which the engine only
    imports.  The record below has the fields [target-detector.ts] reads:
    [canvas.supported], [webgl.supported], [audio.supported],
    [battery.supported] and [storage.localStorage]. *)
Record Capability := { supported : bool }.

Record StorageInfo := { localStorage : bool }.

Record FingerprintData := {
  fd_canvas : Capability;
  fd_webgl : Capability;
  fd_audio : Capability;
  fd_battery : Capability;
  fd_storage : StorageInfo
}.

(** The optional page context of the constructor (its fourth field is
    [localStorage] in the source). *)
Record PageContext := {
  domains : list string;
  scripts : list string;
  cookies : list string;
  localStorageKeys : list string
}.

(* ================================================================== *)
(** ** Results: [target-detector.ts] *)
(* ================================================================== *)

Inductive SignalType := domain | script | cookie | api | fingerprint | storage.

Inductive Severity := low | medium | high | critical.

Record DetectionSignal := {
  type : SignalType;
  signal_name : string;
  found : bool;
  severity : Severity;
  signal_description : string
}.

Record TargetDetectionResult := {
  profile : TargetProfile;
  detected : bool;
  confidence : Z;
  signals : list DetectionSignal;
  riskScore : Z;
  recommendations : list string
}.

Record FullDetectionResult := {
  results : list TargetDetectionResult;
  overallRisk : RiskLevel;
  totalRiskScore : Z;
  criticalTargets : list TargetProfile;
  allSignals : list DetectionSignal
}.

Definition Severity_eqb (a b : Severity) : bool :=
  match a, b with
  | low, low | medium, medium | high, high | critical, critical => true
  | _, _ => false
  end.

Definition SignalType_eqb (a b : SignalType) : bool :=
  match a, b with
  | domain, domain | script, script | cookie, cookie | api, api
  | fingerprint, fingerprint | storage, storage => true
  | _, _ => false
  end.

(** The advisory strings of the [switch (profile.id)] of
    [generateRecommendations]; an id without a [case] adds nothing. *)
Definition specificRecommendations (profileId : string) : list string :=
  if String.eqb profileId "aliexpress" then
    ["AliExpress передаёт данные в Китай без согласия — используйте VPN";
     "Отключите WebRTC для предотвращения утечки IP"]
  else if String.eqb profileId "facebook" then
    ["Установите Facebook Container (Mozilla) для изоляции";
     "Используйте uBlock Origin с фильтрами Facebook"]
  else if String.eqb profileId "google" then
    ["Войдите в Google Account → Данные и конфиденциальность → Отключите отслеживание";
     "Используйте альтернативы: DuckDuckGo, Startpage"]
  else if String.eqb profileId "tiktok" then
    ["TikTok требует обширных разрешений — ограничьте доступ";
     "Запретите доступ к буферу обмена и сенсорам"]
  else [].

(** [Math.round((activeSignals / totalSignals) * 100)] *)
Definition percentage (activeSignals totalSignals : Z) : Z :=
  JS.Math_round
    (JS.mul (JS.div (JS.of_Z activeSignals) (JS.of_Z totalSignals)) (JS.of_Z 100)).

(* ================================================================== *)
(** ** [class TargetDetector] *)
(* ================================================================== *)

Section TargetDetector.

(** The two private fields set by the constructor. *)
Variable fingerprintData : FingerprintData.
Variable pageContext : option PageContext.

(** [this.pageContext?.domains?.some(d => d.includes(x)) ?? false] *)
Definition domainSeen (x : string) : bool :=
  match pageContext with
  | Some ctx => JS.some (fun d => JS.includes d x) (domains ctx)
  | None => false
  end.

(** [this.pageContext?.scripts?.some(s => s.includes(x)) ?? false] *)
Definition scriptSeen (x : string) : bool :=
  match pageContext with
  | Some ctx => JS.some (fun s => JS.includes s x) (scripts ctx)
  | None => false
  end.

Definition checkDomains (profile : TargetProfile) : list DetectionSignal :=
  map (fun domain_ =>
         let found := domainSeen domain_ in
         {| type := domain;
            signal_name := domain_;
            found := found;
            severity := if found then high else low;
            signal_description :=
              if found then "Обнаружено соединение с " ++ domain_
              else "Не обнаружено соединение с " ++ domain_ |})
      (primaryDomains (trackingInfra profile))
  ++
  map (fun tracker =>
         let found := domainSeen tracker in
         {| type := domain;
            signal_name := tracker;
            found := found;
            severity := if found then medium else low;
            signal_description :=
              if found then "Сторонний трекер " ++ tracker ++ " активен"
              else "Трекер " ++ tracker ++ " не обнаружен" |})
      (thirdPartyTrackers (trackingInfra profile)).

Definition checkScripts (profile : TargetProfile) : list DetectionSignal :=
  map (fun lib =>
         let found := scriptSeen lib in
         {| type := script;
            signal_name := lib;
            found := found;
            severity := if found then critical else low;
            signal_description :=
              if found then "Обнаружен трекинг-скрипт " ++ lib
              else "Скрипт " ++ lib ++ " не загружен" |})
      (jsLibraries (trackingInfra profile)).

(** One [if (...) { signals.push({...}) }] of [checkFingerprintMethods]. *)
Definition pushIf (cond : bool) (s : DetectionSignal) : list DetectionSignal :=
  if cond then [s] else [].

Definition checkFingerprintMethods (profile : TargetProfile) : list DetectionSignal :=
  let methods := fingerprintMethods profile in
  pushIf (canvas methods && supported (fd_canvas fingerprintData))
    {| type := fingerprint; signal_name := "Canvas Fingerprinting";
       found := true; severity := high;
       signal_description := name profile ++ " использует Canvas fingerprinting" |}
  ++
  pushIf (webgl methods && supported (fd_webgl fingerprintData))
    {| type := fingerprint; signal_name := "WebGL Fingerprinting";
       found := true; severity := high;
       signal_description := name profile ++ " использует WebGL fingerprinting" |}
  ++
  pushIf (audio methods && supported (fd_audio fingerprintData))
    {| type := fingerprint; signal_name := "Audio Fingerprinting";
       found := true; severity := medium;
       signal_description := name profile ++ " использует Audio fingerprinting" |}
  ++
  pushIf (fonts methods)
    {| type := fingerprint; signal_name := "Font Enumeration";
       found := true; severity := medium;
       signal_description := name profile ++ " перечисляет шрифты" |}
  ++
  pushIf (battery methods && supported (fd_battery fingerprintData))
    {| type := fingerprint; signal_name := "Battery API";
       found := true; severity := medium;
       signal_description := name profile ++ " использует Battery API" |}
  ++
  pushIf (behavioral methods)
    {| type := fingerprint; signal_name := "Behavioral Tracking";
       found := true; severity := high;
       signal_description := name profile ++ " отслеживает поведение" |}.

Definition checkStorageKeys (profile : TargetProfile) : list DetectionSignal :=
  if localStorage (fd_storage fingerprintData) then
    map (fun key =>
           {| type := storage;
              signal_name := key;
              found := false;
              severity := medium;
              signal_description :=
                "Ключ " ++ key ++ " может использоваться " ++ name profile |})
        (JS.slice0 10 (storageKeys profile))
  else [].

(** The four advisories driven by [profile.countermeasures]. *)
Definition countermeasureRecommendations (profile : TargetProfile) : list string :=
  (if useContainer (countermeasures profile)
   then ["Используйте Firefox Container для изоляции " ++ name profile] else [])
  ++
  (if blockDomains (countermeasures profile)
   then ["Заблокируйте домены: "
         ++ JS.join ", " (JS.slice0 3 (primaryDomains (trackingInfra profile)))]
   else [])
  ++
  (if clearCookies (countermeasures profile)
   then ["Регулярно очищайте cookies " ++ name profile] else [])
  ++
  (if spoofFingerprint (countermeasures profile)
   then ["Рассмотрите spoofing fingerprint для защиты от " ++ name profile] else []).

(** The summary pushed when some signal is critical and found. *)
Definition criticalRecommendation (signals : list DetectionSignal) : list string :=
  let criticalSignals :=
    filter (fun s => Severity_eqb (severity s) critical && found s) signals in
  if 0 <? JS.length criticalSignals
  then ["⚠️ Критические трекеры обнаружены: "
        ++ JS.join ", " (map signal_name criticalSignals)]
  else [].

Definition generateRecommendations
  (profile : TargetProfile) (signals : list DetectionSignal) : list string :=
  let recommendations :=
    (countermeasureRecommendations profile
     ++ criticalRecommendation signals
     ++ specificRecommendations (id profile))%list in
  JS.slice0 5 recommendations.

(** The running sum [riskScore] of [detectProfile], before [Math.min]. *)
Definition rawRiskScore (profile : TargetProfile) : Z :=
  let riskScore := 0 in
  let riskScore := riskScore + JS.count found (checkDomains profile) * 10 in
  let riskScore := riskScore + JS.count found (checkScripts profile) * 15 in
  let riskScore := riskScore + JS.count found (checkFingerprintMethods profile) * 5 in
  let riskScore := riskScore + JS.count found (checkStorageKeys profile) * 8 in
  riskScore.

(** The array [signals] of [detectProfile] after the four [push(...)]. *)
Definition emittedSignals (profile : TargetProfile) : list DetectionSignal :=
  checkDomains profile ++ checkScripts profile
  ++ checkFingerprintMethods profile ++ checkStorageKeys profile.

Definition detectProfile (profile : TargetProfile) : TargetDetectionResult :=
  let signals := emittedSignals profile in
  let riskScore := rawRiskScore profile in
  let recommendations := generateRecommendations profile signals in
  let activeSignals := JS.count found signals in
  let totalSignals := if JS.length signals =? 0 then 1 else JS.length signals in
  let confidence := percentage activeSignals totalSignals in
  {| profile := profile;
     detected := 30 <=? riskScore;
     confidence := confidence;
     signals := filter found signals;
     riskScore := JS.Math_min 100 riskScore;
     recommendations := recommendations |}.

Definition calculateOverallRisk
  (totalScore : Z) (results : list TargetDetectionResult) : RiskLevel :=
  let criticalCount :=
    JS.count (fun r => RiskLevel_eqb (riskLevel (profile r)) CRITICAL) results in
  let highScore := JS.count (fun r => 50 <=? riskScore r) results in
  if (2 <=? criticalCount) || (80 <=? totalScore) then CRITICAL
  else if (1 <=? criticalCount) || (2 <=? highScore) || (50 <=? totalScore) then HIGH
  else if 30 <=? totalScore then MEDIUM
  else LOW.

(** The test of the loop of [detectAll]. *)
Definition surfaced (result : TargetDetectionResult) : bool :=
  detected result || (20 <? confidence result).

(** The comparator handed to [results.sort]. *)
Definition byRiskScore (a b : TargetDetectionResult) : Z :=
  riskScore b - riskScore a.

Definition detectAll : FullDetectionResult :=
  let results := filter surfaced (map detectProfile ALL_TARGET_PROFILES) in
  let results := JS.sort byRiskScore results in
  let totalRiskScore := fold_left (fun sum r => sum + riskScore r) results 0 in
  let overallRisk := calculateOverallRisk totalRiskScore results in
  let criticalTargets :=
    map profile
      (filter (fun r => (50 <=? riskScore r)
                        || RiskLevel_eqb (riskLevel (profile r)) CRITICAL)
              results) in
  let allSignals := flat_map (fun r => filter found (signals r)) results in
  {| results := results;
     overallRisk := overallRisk;
     totalRiskScore := JS.Math_min 100 totalRiskScore;
     criticalTargets := criticalTargets;
     allSignals := allSignals |}.

End TargetDetector.

(** [quickDetect]: a detector built without page context. *)
Definition quickDetect
  (fingerprintData : FingerprintData) (profileId : string)
  : option TargetDetectionResult :=
  match JS.find (fun p => String.eqb (id p) profileId) ALL_TARGET_PROFILES with
  | None => None
  | Some profile => Some (detectProfile fingerprintData None profile)
  end.

(** [detectTargetTracking]: the wrapper around [detectAll]. *)
Definition detectTargetTracking
  (fingerprintData : FingerprintData) (pageContext : option PageContext)
  : FullDetectionResult :=
  detectAll fingerprintData pageContext.

(* ================================================================== *)
(** ** Lookups of [targets/profiles.ts] *)
(* ================================================================== *)

(** [getTargetProfile]: [undefined] is [None]. *)
Definition getTargetProfile (profileId : string) : option TargetProfile :=
  JS.find (fun p => String.eqb (id p) profileId) ALL_TARGET_PROFILES.

Definition getProfilesByRisk (risk : RiskLevel) : list TargetProfile :=
  filter (fun p => RiskLevel_eqb (riskLevel p) risk) ALL_TARGET_PROFILES.

(* ================================================================== *)
(** ** What [TargetDetectionDisplay.tsx] derives from a result *)
(* ================================================================== *)

Module Display.

(** [results.slice(0, 5)]: the results that get a card. *)
Definition shownCards (result : FullDetectionResult) : list TargetDetectionResult :=
  JS.slice0 5 (results result).

(** [key={targetResult.profile.id}]: the React keys of the cards. *)
Definition cardKeys (result : FullDetectionResult) : list string :=
  map (fun targetResult => id (profile targetResult)) (shownCards result).

(** [results.filter(r => r.riskScore >= 50).length]: the high-risk counter. *)
Definition highRiskCount (result : FullDetectionResult) : Z :=
  JS.count (fun r => 50 <=? riskScore r) (results result).

(** [recommendations.slice(0, 3)]: the advisories a card lists. *)
Definition shownRecommendations (result : TargetDetectionResult) : list string :=
  JS.slice0 3 (recommendations result).

End Display.

(* ================================================================== *)
(** ** What the claims compare the code with *)
(* ================================================================== *)

(** The number of signals of evidence category [t] that were found. *)
Definition foundOfType (t : SignalType) (l : list DetectionSignal) : Z :=
  JS.count (fun s => SignalType_eqb (type s) t && found s) l.

(** The percentage of the specification: [100 * found / total] rounded to
    the nearest integer (a half rounds up), and 0 when there is no signal. *)
Definition roundedPercentage (foundCount totalCount : Z) : Z :=
  if totalCount =? 0 then 0
  else (200 * foundCount + totalCount) / (2 * totalCount).

(** Sum of a list of scores. *)
Definition sumZ (l : list Z) : Z := fold_right Z.add 0 l.

(** Non-increasing order of the keys of a list. *)
Definition keyGe {A} (key : A -> Z) (a b : A) : Prop := key b <= key a.

(** Non-increasing order of risk scores. *)
Definition riskGe : TargetDetectionResult -> TargetDetectionResult -> Prop :=
  keyGe riskScore.

(** The catalog entries whose result [detectAll] keeps, in catalog order. *)
Definition surfacedProfiles
  (fd : FingerprintData) (ctx : option PageContext) : list TargetProfile :=
  filter (fun p => surfaced (detectProfile fd ctx p)) ALL_TARGET_PROFILES.

(** Some signal named [n] is emitted by the fingerprint-method evaluator. *)
Definition emitsMethod (fd : FingerprintData) (p : TargetProfile) (n : string) : Prop :=
  exists s, In s (checkFingerprintMethods fd p) /\ signal_name s = n.

(** Severity the specification fixes for each fingerprint method. *)
Definition methodSeverity (n : string) : option Severity :=
  if String.eqb n "Canvas Fingerprinting" then Some high
  else if String.eqb n "WebGL Fingerprinting" then Some high
  else if String.eqb n "Behavioral Tracking" then Some high
  else if String.eqb n "Audio Fingerprinting" then Some medium
  else if String.eqb n "Font Enumeration" then Some medium
  else if String.eqb n "Battery API" then Some medium
  else None.

(** The advisories before the id-specific ones, flag by flag. *)
Definition advisory (flag : bool) (text : string) : list string :=
  if flag then [text] else [].

(** [percentage] agrees with [roundedPercentage] on every pair
    [0 <= a <= t], [1 <= t <= n], the pair (23, 40) apart, where the double
    product is 57.49999999999999 and rounds down. *)
Definition percentageTable (n : nat) : bool :=
  forallb
    (fun t =>
       forallb
         (fun a =>
            let a := Z.of_nat a in
            let t := Z.of_nat t in
            (percentage a t =? roundedPercentage a t)
            || ((a =? 23) && (t =? 40) && (percentage a t =? 57)))
         (seq 0 (S t)))
    (seq 1 n).

(** *** Concrete runs *)

Definition capability (b : bool) : Capability := {| supported := b |}.

(** A browser with canvas, WebGL and audio but no battery API, with local
    storage, on a page that contacted every AliExpress domain and tracker. *)
Definition aliexpressVisit : FingerprintData := {|
  fd_canvas := capability true;
  fd_webgl := capability true;
  fd_audio := capability true;
  fd_battery := capability false;
  fd_storage := {| localStorage := true |}
|}.

Definition aliexpressPage : option PageContext := Some {|
  domains :=
    ["g.alicdn.com"; "log.mmstat.com"; "atanx.alicdn.com"; "gtd.alicdn.com";
     "acjs.aliyun.com"; "ynuf.alipay.com"; "aeis.alicdn.com"; "afcs.alicdn.com";
     "criteo.com"; "appsflyer.com"; "google-analytics.com"; "facebook.com";
     "rtbhouse.com"; "moloco.com"; "remerge.io"; "tiktok.com";
     "taboola.com"; "outbrain.com"];
  scripts := [];
  cookies := [];
  localStorageKeys := []
|}.

(** A browser that supports none of the probed APIs and has no local
    storage, on a page that loaded a video from YouTube. *)
Definition bareBrowser : FingerprintData := {|
  fd_canvas := capability false;
  fd_webgl := capability false;
  fd_audio := capability false;
  fd_battery := capability false;
  fd_storage := {| localStorage := false |}
|}.

Definition youtubePage : option PageContext := Some {|
  domains := ["www.youtube.com"];
  scripts := [];
  cookies := [];
  localStorageKeys := []
|}.

(** A page that contacted one AliExpress domain and one of its trackers. *)
Definition alicdnPage : option PageContext := Some {|
  domains := ["g.alicdn.com"; "criteo.com"];
  scripts := [];
  cookies := [];
  localStorageKeys := []
|}.

(** A browser with canvas and WebGL only, and no local storage. *)
Definition canvasBrowser : FingerprintData := {|
  fd_canvas := capability true;
  fd_webgl := capability true;
  fd_audio := capability false;
  fd_battery := capability false;
  fd_storage := {| localStorage := false |}
|}.

(** *** Vocabulary of the further properties *)

(** [needle] occurs in [hay]. *)
Definition substringOf (needle hay : string) : Prop :=
  exists pre post, hay = pre ++ needle ++ post.

(** The four verdicts, from mildest to gravest. *)
Definition RiskLevel_rank (r : RiskLevel) : Z :=
  match r with LOW => 0 | MEDIUM => 1 | HIGH => 2 | CRITICAL => 3 end.

(** The second page context has seen at least what the first has: no
    context, or a context with empty lists, is the least. *)
Definition observedMore (c1 c2 : option PageContext) : Prop :=
  match c1, c2 with
  | None, _ => True
  | Some a, Some b => incl (domains a) (domains b) /\ incl (scripts a) (scripts b)
  | Some a, None => domains a = [] /\ scripts a = []
  end.

(** What the evaluators read of a page context: its domains and script
    URLs, and nothing when there is no context. *)
Definition seenDomains (ctx : option PageContext) : list string :=
  match ctx with Some c => domains c | None => [] end.

Definition seenScripts (ctx : option PageContext) : list string :=
  match ctx with Some c => scripts c | None => [] end.

(** The number of results whose profile is rated CRITICAL. *)
Definition criticalCount (l : list TargetDetectionResult) : Z :=
  JS.count (fun r => RiskLevel_eqb (riskLevel (profile r)) CRITICAL) l.

(** A bare browser that has local storage. *)
Definition storageOnlyBrowser : FingerprintData := {|
  fd_canvas := capability false;
  fd_webgl := capability false;
  fd_audio := capability false;
  fd_battery := capability false;
  fd_storage := {| localStorage := true |}
|}.

(** A page that used several Google services; its cookie and storage
    lists are filled, which the engine does not read. *)
Definition googlePage : option PageContext := Some {|
  domains := ["www.youtube.com"; "www.google.com"; "www.googletagmanager.com"];
  scripts := ["https://www.googletagmanager.com/gtm.js?id=GTM-1"];
  cookies := ["_ga"; "NID"];
  localStorageKeys := ["_gid"]
|}.

(** Case analysis on a profile of the registry. *)
Ltac catalog_cases Hp :=
  cbn [ALL_TARGET_PROFILES In] in Hp;
  destruct Hp as [<-|[<-|[<-|[<-|[<-|[]]]]]].

(* ================================================================== *)
(** ** Lists, counts and the stable sort *)
(* ================================================================== *)

Section ListFacts.
Context {A : Type}.

Lemma count_nonneg (p : A -> bool) (l : list A) : 0 <= JS.count p l.
Proof. unfold JS.count, JS.length. lia. Qed.

Lemma count_le_length (p : A -> bool) (l : list A) : JS.count p l <= JS.length l.
Proof.
  unfold JS.count, JS.length. apply Nat2Z.inj_le. apply filter_length_le.
Qed.

Lemma count_app (p : A -> bool) (l1 l2 : list A) :
  JS.count p (l1 ++ l2) = JS.count p l1 + JS.count p l2.
Proof.
  unfold JS.count, JS.length. rewrite filter_app, length_app. lia.
Qed.

Lemma length_app_Z (l1 l2 : list A) :
  JS.length (l1 ++ l2) = JS.length l1 + JS.length l2.
Proof. unfold JS.length. rewrite length_app. lia. Qed.

Lemma count_none (p : A -> bool) (l : list A) :
  (forall x, In x l -> p x = false) -> JS.count p l = 0.
Proof.
  intros H. unfold JS.count, JS.length.
  induction l as [|x l IH]; simpl; [reflexivity|].
  rewrite (H x (or_introl eq_refl)). apply IH. intros y Hy. apply H. now right.
Qed.

Lemma count_ext_in (p q : A -> bool) (l : list A) :
  (forall x, In x l -> p x = q x) -> JS.count p l = JS.count q l.
Proof.
  intros H. unfold JS.count. f_equal. apply filter_ext_in. exact H.
Qed.

Lemma fold_left_sum (f : A -> Z) (l : list A) (acc : Z) :
  fold_left (fun sum r => sum + f r) l acc = acc + sumZ (map f l).
Proof.
  revert acc. induction l as [|x l IH]; intros acc; simpl; [lia|].
  rewrite IH. lia.
Qed.

Lemma sumZ_perm (f : A -> Z) (l1 l2 : list A) :
  Permutation l1 l2 -> sumZ (map f l1) = sumZ (map f l2).
Proof.
  induction 1; simpl; lia.
Qed.

(** Capping every non-negative summand at 100 does not change the capped sum. *)
Lemma min_sum_capped (f : A -> Z) (l : list A) :
  (forall x, In x l -> 0 <= f x) ->
  0 <= sumZ (map f l) /\
  0 <= sumZ (map (fun x => Z.min 100 (f x)) l) /\
  Z.min 100 (sumZ (map (fun x => Z.min 100 (f x)) l)) = Z.min 100 (sumZ (map f l)).
Proof.
  induction l as [|x l IH]; intros H; simpl; [lia|].
  assert (Hx : 0 <= f x) by (apply H; now left).
  destruct IH as (H1 & H2 & H3); [intros y Hy; apply H; now right|].
  lia.
Qed.

Section StableSort.
Variable key : A -> Z.
Variable cmp : A -> A -> Z.
Hypothesis cmp_key : forall x y, cmp x y = key y - key x.

Lemma insert_perm (x : A) (l : list A) : Permutation (JS.insert cmp x l) (x :: l).
Proof.
  induction l as [|y l IH]; simpl; [reflexivity|].
  destruct (cmp x y <=? 0); [reflexivity|].
  rewrite IH. apply perm_swap.
Qed.

Lemma sort_perm (l : list A) : Permutation (JS.sort cmp l) l.
Proof.
  induction l as [|x l IH]; simpl; [constructor|].
  rewrite insert_perm. now constructor.
Qed.

Lemma sort_In (l : list A) (x : A) : In x (JS.sort cmp l) <-> In x l.
Proof.
  split; apply Permutation_in; [|symmetry]; apply sort_perm.
Qed.

Lemma insert_sorted (x : A) (l : list A) :
  StronglySorted (keyGe key) l -> StronglySorted (keyGe key) (JS.insert cmp x l).
Proof.
  induction 1 as [|y l Hs IH Hall]; simpl.
  - repeat constructor.
  - destruct (Z.leb_spec (cmp x y) 0) as [Hle|Hgt]; rewrite cmp_key in *.
    + constructor; [now constructor|].
      constructor; [unfold keyGe; lia|].
      rewrite Forall_forall in *. intros z Hz. specialize (Hall z Hz).
      unfold keyGe in *. lia.
    + constructor; [exact IH|].
      rewrite Forall_forall in *. intros z Hz.
      apply (Permutation_in _ (insert_perm x l)) in Hz.
      destruct Hz as [<-|Hz]; [unfold keyGe; lia|now apply Hall].
Qed.

Lemma sort_sorted (l : list A) : StronglySorted (keyGe key) (JS.sort cmp l).
Proof.
  induction l as [|x l IH]; simpl; [constructor|now apply insert_sorted].
Qed.

(** Stability: the elements of one key keep their relative order. *)
Lemma insert_stable (v : Z) (x : A) (l : list A) :
  filter (fun y => key y =? v) (JS.insert cmp x l)
  = filter (fun y => key y =? v) (x :: l).
Proof.
  induction l as [|y l IH]; [reflexivity|].
  cbn [JS.insert].
  destruct (Z.leb_spec (cmp x y) 0) as [Hle|Hgt]; [reflexivity|].
  rewrite cmp_key in Hgt.
  cbn [filter] in *. rewrite IH.
  destruct (Z.eqb_spec (key y) v), (Z.eqb_spec (key x) v); try reflexivity; lia.
Qed.

Lemma sort_stable (v : Z) (l : list A) :
  filter (fun y => key y =? v) (JS.sort cmp l) = filter (fun y => key y =? v) l.
Proof.
  induction l as [|x l IH]; [reflexivity|].
  cbn [JS.sort fold_right]. rewrite insert_stable.
  cbn [filter]. fold (JS.sort cmp l). now rewrite IH.
Qed.

(** A stable sort has one possible result: two non-increasing lists with
    the same elements of every key, in the same order, are equal.  So
    [JS.sort] is what any conforming [Array.prototype.sort] returns. *)
Lemma stable_sorted_unique (l1 l2 : list A) :
  StronglySorted (keyGe key) l1 -> StronglySorted (keyGe key) l2 ->
  (forall v, filter (fun y => key y =? v) l1 = filter (fun y => key y =? v) l2) ->
  l1 = l2.
Proof.
  intros H1. revert l2.
  induction H1 as [|a l1 Hs1 IH Hall1]; intros l2 H2 Hf.
  - destruct l2 as [|b l2]; [reflexivity|].
    specialize (Hf (key b)). cbn [filter] in Hf.
    rewrite Z.eqb_refl in Hf. discriminate.
  - destruct H2 as [|b l2 Hs2 Hall2].
    + specialize (Hf (key a)). cbn [filter] in Hf.
      rewrite Z.eqb_refl in Hf. discriminate.
    + assert (Hab : key a = key b).
      { rewrite Forall_forall in Hall1, Hall2. unfold keyGe in *.
        assert (Hb : In b (filter (fun y => key y =? key b) (a :: l1))).
        { rewrite Hf. cbn [filter]. rewrite Z.eqb_refl. now left. }
        assert (Ha : In a (filter (fun y => key y =? key a) (b :: l2))).
        { rewrite <- Hf. cbn [filter]. rewrite Z.eqb_refl. now left. }
        apply filter_In in Hb. destruct Hb as [Hb _].
        apply filter_In in Ha. destruct Ha as [Ha _].
        assert (key b <= key a) by (destruct Hb as [<-|Hb]; [lia|now apply Hall1]).
        assert (key a <= key b) by (destruct Ha as [<-|Ha]; [lia|now apply Hall2]).
        lia. }
      assert (Hhd := Hf (key a)). cbn [filter] in Hhd.
      rewrite Z.eqb_refl in Hhd. rewrite <- Hab, Z.eqb_refl in Hhd.
      injection Hhd as Heq Htl. subst b. f_equal.
      apply IH; [exact Hs2|]. intros v.
      specialize (Hf v). cbn [filter] in Hf.
      destruct (Z.eqb_spec (key a) v) as [Hv|Hne]; [subst v; exact Htl|exact Hf].
Qed.

End StableSort.

Lemma filter_map_comm {B} (f : A -> B) (p : B -> bool) (l : list A) :
  filter p (map f l) = map f (filter (fun x => p (f x)) l).
Proof.
  induction l as [|x l IH]; simpl; [reflexivity|].
  destruct (p (f x)); simpl; now rewrite IH.
Qed.

End ListFacts.

(** [Math.round] sends a tie towards +infinity, and the quotient 23 / 40
    times 100 falls just below 57.5. *)
Example Math_round_ties :
  JS.Math_round (JS.div (JS.of_Z 5) (JS.of_Z 2)) = 3
  /\ JS.Math_round (JS.div (JS.of_Z (-5)) (JS.of_Z 2)) = -2
  /\ JS.Math_round (JS.div (JS.of_Z 1) (JS.of_Z 8)) = 0
  /\ percentage 1 8 = 13
  /\ percentage 23 40 = 57.
Proof. vm_compute. repeat split; reflexivity. Qed.

Example includes_substring :
  JS.includes "https://www.youtube.com/embed" "youtube.com" = true
  /\ JS.includes "youtube.com" "www.youtube.com" = false
  /\ JS.includes "" "" = true.
Proof. vm_compute. repeat split; reflexivity. Qed.

Example sort_keeps_ties_in_order :
  JS.sort (fun a b => snd b - snd a) [("a", 20); ("b", 40); ("c", 20); ("d", 40)]
  = [("b", 40); ("d", 40); ("a", 20); ("c", 20)].
Proof. reflexivity. Qed.

(* ================================================================== *)
(** ** The four signal evaluators *)
(* ================================================================== *)

Lemma In_pushIf (c : bool) (x s : DetectionSignal) :
  In s (pushIf c x) <-> c = true /\ s = x.
Proof.
  unfold pushIf. destruct c; simpl; intuition congruence.
Qed.

Lemma checkDomains_type ctx p s : In s (checkDomains ctx p) -> type s = domain.
Proof.
  unfold checkDomains. intros H.
  apply in_app_or in H. destruct H as [H|H];
    apply in_map_iff in H; destruct H as (x & <- & _); reflexivity.
Qed.

Lemma checkScripts_type ctx p s : In s (checkScripts ctx p) -> type s = script.
Proof.
  unfold checkScripts. intros H.
  apply in_map_iff in H. destruct H as (x & <- & _). reflexivity.
Qed.

(** Without page context nothing is seen. *)
Lemma checkDomains_no_context p s : In s (checkDomains None p) -> found s = false.
Proof.
  unfold checkDomains. intros H.
  apply in_app_or in H. destruct H as [H|H];
    apply in_map_iff in H; destruct H as (x & <- & _); reflexivity.
Qed.

Lemma checkScripts_no_context p s : In s (checkScripts None p) -> found s = false.
Proof.
  unfold checkScripts. intros H.
  apply in_map_iff in H. destruct H as (x & <- & _). reflexivity.
Qed.

(** The six possible outputs of the fingerprint-method evaluator. *)
Lemma checkFingerprintMethods_cases fd p s :
  In s (checkFingerprintMethods fd p) ->
  type s = fingerprint /\ found s = true /\
  (   (signal_name s = "Canvas Fingerprinting" /\ severity s = high
       /\ canvas (fingerprintMethods p) = true /\ supported (fd_canvas fd) = true)
   \/ (signal_name s = "WebGL Fingerprinting" /\ severity s = high
       /\ webgl (fingerprintMethods p) = true /\ supported (fd_webgl fd) = true)
   \/ (signal_name s = "Audio Fingerprinting" /\ severity s = medium
       /\ audio (fingerprintMethods p) = true /\ supported (fd_audio fd) = true)
   \/ (signal_name s = "Font Enumeration" /\ severity s = medium
       /\ fonts (fingerprintMethods p) = true)
   \/ (signal_name s = "Battery API" /\ severity s = medium
       /\ battery (fingerprintMethods p) = true /\ supported (fd_battery fd) = true)
   \/ (signal_name s = "Behavioral Tracking" /\ severity s = high
       /\ behavioral (fingerprintMethods p) = true)).
Proof.
  unfold checkFingerprintMethods. intros H.
  repeat (apply in_app_or in H; destruct H as [H|H]);
    apply In_pushIf in H; destruct H as [Hc ->]; cbn;
    try (apply andb_true_iff in Hc; destruct Hc);
    repeat split; tauto.
Qed.

Lemma checkFingerprintMethods_found fd p :
  JS.count found (checkFingerprintMethods fd p)
  = JS.length (checkFingerprintMethods fd p).
Proof.
  unfold JS.count. f_equal. apply forallb_filter_id.
  apply forallb_forall. intros s Hs.
  now apply checkFingerprintMethods_cases in Hs.
Qed.

Lemma checkFingerprintMethods_length fd p :
  JS.length (checkFingerprintMethods fd p) <= 6.
Proof.
  unfold checkFingerprintMethods, JS.length, pushIf.
  repeat match goal with |- context [if ?c then _ else _] => destruct c end;
    cbn; lia.
Qed.

Lemma checkStorageKeys_cases fd p s :
  In s (checkStorageKeys fd p) ->
  type s = storage /\ found s = false /\ severity s = medium
  /\ localStorage (fd_storage fd) = true
  /\ In (signal_name s) (firstn 10 (storageKeys p)).
Proof.
  unfold checkStorageKeys, JS.slice0.
  destruct (localStorage (fd_storage fd)); [|intros []].
  intros H. apply in_map_iff in H. destruct H as (k & <- & Hk). cbn. tauto.
Qed.

Lemma checkStorageKeys_names fd p :
  map signal_name (checkStorageKeys fd p)
  = if localStorage (fd_storage fd) then firstn 10 (storageKeys p) else [].
Proof.
  unfold checkStorageKeys, JS.slice0.
  destruct (localStorage (fd_storage fd)); [|reflexivity].
  rewrite map_map. cbn. apply map_id.
Qed.

Lemma checkStorageKeys_length fd p :
  JS.length (checkStorageKeys fd p) <= 10
  /\ JS.length (checkStorageKeys fd p) <= JS.length (storageKeys p).
Proof.
  unfold JS.length.
  rewrite <- (length_map signal_name (checkStorageKeys fd p)), checkStorageKeys_names.
  destruct (localStorage (fd_storage fd)); cbn [List.length].
  - rewrite length_firstn. lia.
  - lia.
Qed.

Lemma checkStorageKeys_count fd p : JS.count found (checkStorageKeys fd p) = 0.
Proof.
  apply count_none. intros s Hs. now apply checkStorageKeys_cases in Hs.
Qed.

(** Each evidence category of the concatenated list comes from one evaluator. *)
Lemma foundOfType_emitted fd ctx p :
  let sigs := emittedSignals fd ctx p in
  foundOfType domain sigs = JS.count found (checkDomains ctx p)
  /\ foundOfType script sigs = JS.count found (checkScripts ctx p)
  /\ foundOfType fingerprint sigs = JS.count found (checkFingerprintMethods fd p)
  /\ foundOfType storage sigs = JS.count found (checkStorageKeys fd p).
Proof.
  assert (same : forall t l, (forall s, In s l -> type s = t) ->
                 foundOfType t l = JS.count found l).
  { intros t l H. apply count_ext_in. intros s Hs. rewrite (H s Hs).
    now destruct t. }
  assert (other : forall t t' l, t <> t' -> (forall s, In s l -> type s = t') ->
                  foundOfType t l = 0).
  { intros t t' l Hne H. apply count_none. intros s Hs. rewrite (H s Hs).
    destruct t, t'; try reflexivity; congruence. }
  assert (Hd := checkDomains_type ctx p).
  assert (Hs := checkScripts_type ctx p).
  assert (Hf : forall s, In s (checkFingerprintMethods fd p) -> type s = fingerprint)
    by (intros s H; now apply checkFingerprintMethods_cases in H).
  assert (Hk : forall s, In s (checkStorageKeys fd p) -> type s = storage)
    by (intros s H; now apply checkStorageKeys_cases in H).
  assert (app : forall t l1 l2,
                 foundOfType t (l1 ++ l2) = foundOfType t l1 + foundOfType t l2)
    by (intros; apply count_app).
  cbv zeta. unfold emittedSignals. rewrite !app.
  repeat split.
  - rewrite (same _ _ Hd), (other domain script _ ltac:(discriminate) Hs),
      (other domain fingerprint _ ltac:(discriminate) Hf), (other domain storage _ ltac:(discriminate) Hk).
    lia.
  - rewrite (same _ _ Hs), (other script domain _ ltac:(discriminate) Hd),
      (other script fingerprint _ ltac:(discriminate) Hf), (other script storage _ ltac:(discriminate) Hk).
    lia.
  - rewrite (same _ _ Hf), (other fingerprint domain _ ltac:(discriminate) Hd),
      (other fingerprint script _ ltac:(discriminate) Hs),
      (other fingerprint storage _ ltac:(discriminate) Hk).
    lia.
  - rewrite (same _ _ Hk), (other storage domain _ ltac:(discriminate) Hd),
      (other storage script _ ltac:(discriminate) Hs),
      (other storage fingerprint _ ltac:(discriminate) Hf).
    lia.
Qed.

Lemma rawRiskScore_eq fd ctx p :
  rawRiskScore fd ctx p
  = 10 * JS.count found (checkDomains ctx p)
    + 15 * JS.count found (checkScripts ctx p)
    + 5 * JS.count found (checkFingerprintMethods fd p)
    + 8 * JS.count found (checkStorageKeys fd p).
Proof. unfold rawRiskScore. lia. Qed.

Lemma rawRiskScore_nonneg fd ctx p : 0 <= rawRiskScore fd ctx p.
Proof.
  rewrite rawRiskScore_eq.
  pose proof (count_nonneg found (checkDomains ctx p)).
  pose proof (count_nonneg found (checkScripts ctx p)).
  pose proof (count_nonneg found (checkFingerprintMethods fd p)).
  pose proof (count_nonneg found (checkStorageKeys fd p)).
  lia.
Qed.

(* ================================================================== *)
(** ** The per-profile scorer *)
(* ================================================================== *)

(** C1.  The risk score of [detectProfile] is 10 times the number of found
    domain signals, plus 15 times the number of found script signals, plus 5
    times the number of found fingerprint signals, plus 8 times the number
    of found storage signals, clamped to the range 0..100. *)
Theorem detectProfile_riskScore fd ctx p :
  let sigs := emittedSignals fd ctx p in
  riskScore (detectProfile fd ctx p)
  = Z.max 0 (Z.min 100 (10 * foundOfType domain sigs
                        + 15 * foundOfType script sigs
                        + 5 * foundOfType fingerprint sigs
                        + 8 * foundOfType storage sigs))
  /\ 0 <= riskScore (detectProfile fd ctx p) <= 100.
Proof.
  cbv zeta.
  destruct (foundOfType_emitted fd ctx p) as (-> & -> & -> & ->).
  cbn [detectProfile riskScore]. unfold JS.Math_min.
  pose proof (rawRiskScore_nonneg fd ctx p) as Hnn.
  rewrite <- rawRiskScore_eq. lia.
Qed.

(** The scenario of the specification: two domains seen, canvas and WebGL
    supported, audio not: 20 points of domains and 20 of fingerprints. *)
Example aliexpress_scenario :
  riskScore (detectProfile canvasBrowser alicdnPage AliExpressProfile) = 40
  /\ detected (detectProfile canvasBrowser alicdnPage AliExpressProfile) = true
  /\ map signal_name (signals (detectProfile canvasBrowser alicdnPage AliExpressProfile))
     = ["g.alicdn.com"; "criteo.com"; "Canvas Fingerprinting";
        "WebGL Fingerprinting"; "Font Enumeration"; "Behavioral Tracking"].
Proof. vm_compute. repeat split; reflexivity. Qed.

(** C4.  The fingerprint-method evaluator emits only found signals; the
    canvas, WebGL, audio and battery signals are emitted exactly when the
    profile declares the method and the bundle reports it supported, the
    fonts and behavioral signals exactly when the profile declares them,
    whatever the bundle says; canvas, WebGL and behavioral have severity
    high, audio, fonts and battery severity medium. *)
Theorem checkFingerprintMethods_gating fd p :
  let m := fingerprintMethods p in
  (forall s, In s (checkFingerprintMethods fd p) ->
     found s = true /\ methodSeverity (signal_name s) = Some (severity s))
  /\ (emitsMethod fd p "Canvas Fingerprinting"
      <-> canvas m = true /\ supported (fd_canvas fd) = true)
  /\ (emitsMethod fd p "WebGL Fingerprinting"
      <-> webgl m = true /\ supported (fd_webgl fd) = true)
  /\ (emitsMethod fd p "Audio Fingerprinting"
      <-> audio m = true /\ supported (fd_audio fd) = true)
  /\ (emitsMethod fd p "Battery API"
      <-> battery m = true /\ supported (fd_battery fd) = true)
  /\ (emitsMethod fd p "Font Enumeration" <-> fonts m = true)
  /\ (emitsMethod fd p "Behavioral Tracking" <-> behavioral m = true).
Proof.
  cbv zeta.
  assert (fwd : forall n s, In s (checkFingerprintMethods fd p) ->
                signal_name s = n -> _) by
    (intros n s Hs Hn; apply checkFingerprintMethods_cases in Hs;
     rewrite Hn in Hs; exact Hs).
  split.
  { intros s Hs. apply checkFingerprintMethods_cases in Hs.
    destruct Hs as (_ & Hfound & Hcases). split; [exact Hfound|].
    destruct Hcases as [H|[H|[H|[H|[H|H]]]]];
      destruct H as (-> & -> & _); reflexivity. }
  unfold emitsMethod.
  refine (conj _ (conj _ (conj _ (conj _ (conj _ _))))); split;
    try (intros (s & Hs & Hn); specialize (fwd _ s Hs Hn);
         destruct fwd as (_ & _ & [H|[H|[H|[H|[H|H]]]]]);
         destruct H as (Hname & _ & H); try discriminate Hname; tauto).
  all: intros Hc; eexists; split;
    [ unfold checkFingerprintMethods; rewrite !in_app_iff, !In_pushIf,
        ?andb_true_iff
    | ].
  - left. split; [exact Hc|reflexivity].
  - reflexivity.
  - right; left. split; [exact Hc|reflexivity].
  - reflexivity.
  - do 2 right; left. split; [exact Hc|reflexivity].
  - reflexivity.
  - do 4 right; left. split; [exact Hc|reflexivity].
  - reflexivity.
  - do 3 right; left. split; [exact Hc|reflexivity].
  - reflexivity.
  - do 5 right. split; [exact Hc|reflexivity].
  - reflexivity.
Qed.

(** C8.  The storage-key evaluator emits nothing unless the bundle reports
    local storage; otherwise it emits one signal for each of the first 10
    declared storage keys, in order; every emitted signal is not found and
    has severity medium.  So no storage signal is counted as found, and the
    risk score is the one of the three other categories. *)
Theorem checkStorageKeys_stub fd ctx p :
  (localStorage (fd_storage fd) = false -> checkStorageKeys fd p = [])
  /\ map signal_name (checkStorageKeys fd p)
     = (if localStorage (fd_storage fd) then firstn 10 (storageKeys p) else [])
  /\ JS.length (checkStorageKeys fd p) <= 10
  /\ (forall s, In s (checkStorageKeys fd p) ->
        type s = storage /\ found s = false /\ severity s = medium)
  /\ foundOfType storage (emittedSignals fd ctx p) = 0
  /\ riskScore (detectProfile fd ctx p)
     = Z.min 100 (10 * foundOfType domain (emittedSignals fd ctx p)
                  + 15 * foundOfType script (emittedSignals fd ctx p)
                  + 5 * foundOfType fingerprint (emittedSignals fd ctx p)).
Proof.
  destruct (foundOfType_emitted fd ctx p) as (Hd & Hs & Hf & Hk). cbv zeta in *.
  refine (conj _ (conj _ (conj _ (conj _ (conj _ _))))).
  - intros H. unfold checkStorageKeys. now rewrite H.
  - apply checkStorageKeys_names.
  - apply checkStorageKeys_length.
  - intros s H. apply checkStorageKeys_cases in H. tauto.
  - rewrite Hk. apply checkStorageKeys_count.
  - rewrite Hd, Hs, Hf. cbn [detectProfile riskScore]. unfold JS.Math_min.
    rewrite rawRiskScore_eq, checkStorageKeys_count. f_equal. lia.
Qed.

(* ================================================================== *)
(** ** Recommendations *)
(* ================================================================== *)

Lemma criticalRecommendation_eq (sigs : list DetectionSignal) :
  criticalRecommendation sigs
  = advisory (existsb (fun s => Severity_eqb (severity s) critical && found s) sigs)
      ("⚠️ Критические трекеры обнаружены: "
       ++ JS.join ", "
            (map signal_name
               (filter (fun s => Severity_eqb (severity s) critical && found s) sigs))).
Proof.
  unfold criticalRecommendation, advisory, JS.length.
  induction sigs as [|s sigs IH]; [reflexivity|].
  cbn [filter existsb].
  destruct (Severity_eqb (severity s) critical && found s); [reflexivity|].
  cbn [orb]. exact IH.
Qed.

(** C3, as the code has it.  The recommendations of [detectProfile] are the
    first 5 entries, in generation order, of: the container, domain-block,
    cookie-clear and fingerprint-spoof advisories of the countermeasure
    flags that are set; then the critical-signal summary when some emitted
    signal is critical and found; then the two fixed advisories of the
    profile id, which exist for aliexpress, facebook, google and tiktok and
    for no other id: amazon has none. *)
Theorem detectProfile_recommendations fd ctx p :
  let cm := countermeasures p in
  let sigs := emittedSignals fd ctx p in
  let isCritical := fun s => Severity_eqb (severity s) critical && found s in
  recommendations (detectProfile fd ctx p)
  = firstn 5
      (advisory (useContainer cm)
         ("Используйте Firefox Container для изоляции " ++ name p)
       ++ advisory (blockDomains cm)
            ("Заблокируйте домены: "
             ++ JS.join ", " (firstn 3 (primaryDomains (trackingInfra p))))
       ++ advisory (clearCookies cm) ("Регулярно очищайте cookies " ++ name p)
       ++ advisory (spoofFingerprint cm)
            ("Рассмотрите spoofing fingerprint для защиты от " ++ name p)
       ++ advisory (existsb isCritical sigs)
            ("⚠️ Критические трекеры обнаружены: "
             ++ JS.join ", " (map signal_name (filter isCritical sigs)))
       ++ specificRecommendations (id p))%list
  /\ (List.length (recommendations (detectProfile fd ctx p)) <= 5)%nat
  /\ List.length (specificRecommendations "aliexpress") = 2%nat
  /\ List.length (specificRecommendations "facebook") = 2%nat
  /\ List.length (specificRecommendations "google") = 2%nat
  /\ List.length (specificRecommendations "tiktok") = 2%nat
  /\ specificRecommendations "amazon" = []
  /\ (forall i, i <> "aliexpress" -> i <> "facebook" -> i <> "google" ->
                i <> "tiktok" -> specificRecommendations i = []).
Proof.
  cbv zeta. cbn [detectProfile recommendations].
  unfold generateRecommendations, JS.slice0.
  refine (conj _ (conj _ (conj _ (conj _ (conj _ (conj _ (conj _ _)))))));
    try reflexivity.
  - rewrite criticalRecommendation_eq. unfold countermeasureRecommendations, advisory.
    rewrite <- !app_assoc. reflexivity.
  - apply firstn_le_length.
  - intros i H1 H2 H3 H4. unfold specificRecommendations.
    apply String.eqb_neq in H1, H2, H3, H4. now rewrite H1, H2, H3, H4.
Qed.

(** C3, as stated, fails for the catalog id amazon: its recommendations are
    the two advisories of its countermeasure flags and nothing else, so no
    non-empty list of amazon-specific advisories follows them. *)
Lemma amazon_has_no_specific_advisory :
  recommendations (detectProfile canvasBrowser None AmazonProfile)
  = ["Заблокируйте домены: amazon.com, amazon-adsystem.com, amazonaws.com";
     "Регулярно очищайте cookies Amazon"]
  /\ ~ (exists specific : list string,
          specific <> [] /\
          recommendations (detectProfile canvasBrowser None AmazonProfile)
          = firstn 5
              (countermeasureRecommendations AmazonProfile
               ++ criticalRecommendation (emittedSignals canvasBrowser None AmazonProfile)
               ++ specific)%list).
Proof.
  split; [vm_compute; reflexivity|].
  intros (specific & Hne & H).
  destruct specific as [|x specific]; [now apply Hne|].
  apply (f_equal (@List.length string)) in H.
  revert H. vm_compute. destruct specific as [|y [|z [|? ?]]]; discriminate.
Qed.

(* ================================================================== *)
(** ** Confidence *)
(* ================================================================== *)

Lemma percentageTable_48 : percentageTable 48 = true.
Proof. vm_compute. reflexivity. Qed.

(** Up to 48 signals the double computation gives the rounded percentage,
    23 found out of 40 apart. *)
Lemma percentage_small (a t : Z) :
  0 <= a <= t -> 1 <= t <= 48 ->
  percentage a t = roundedPercentage a t
  \/ (a = 23 /\ t = 40 /\ percentage a t = 57).
Proof.
  intros Ha Ht.
  pose proof percentageTable_48 as H. unfold percentageTable in H.
  rewrite forallb_forall in H.
  assert (Hin_t : In (Z.to_nat t) (seq 1 48)) by (apply in_seq; lia).
  specialize (H (Z.to_nat t) Hin_t). rewrite forallb_forall in H.
  assert (Hin_a : In (Z.to_nat a) (seq 0 (S (Z.to_nat t)))) by (apply in_seq; lia).
  specialize (H (Z.to_nat a) Hin_a).
  cbv zeta in H. rewrite !Z2Nat.id in H by lia.
  apply orb_true_iff in H. destruct H as [H|H].
  - left. now apply Z.eqb_eq.
  - right. rewrite !andb_true_iff, !Z.eqb_eq in H. tauto.
Qed.

Lemma roundedPercentage_bounds (a t : Z) :
  1 <= a <= t -> t <= 200 * a -> 1 <= roundedPercentage a t <= 100.
Proof.
  intros H Hsmall. unfold roundedPercentage.
  destruct (Z.eqb_spec t 0); [lia|]. split.
  - apply Z.div_le_lower_bound; lia.
  - enough ((200 * a + t) / (2 * t) < 101) by lia.
    apply Z.div_lt_upper_bound; lia.
Qed.

Lemma percentage_small_bounds (a t : Z) :
  1 <= a <= t -> t <= 48 -> 1 <= percentage a t <= 100.
Proof.
  intros Ha Ht.
  destruct (percentage_small a t) as [->|(_ & _ & ->)]; try lia.
  apply roundedPercentage_bounds; lia.
Qed.

Lemma emittedSignals_length fd ctx p :
  JS.length (emittedSignals fd ctx p)
  = JS.length (primaryDomains (trackingInfra p))
    + JS.length (thirdPartyTrackers (trackingInfra p))
    + JS.length (jsLibraries (trackingInfra p))
    + JS.length (checkFingerprintMethods fd p)
    + JS.length (checkStorageKeys fd p).
Proof.
  unfold emittedSignals. rewrite !length_app_Z.
  unfold checkDomains, checkScripts. rewrite length_app_Z.
  unfold JS.length. rewrite !length_map. lia.
Qed.

Lemma detectProfile_confidence fd ctx p :
  confidence (detectProfile fd ctx p)
  = percentage (JS.count found (emittedSignals fd ctx p))
      (Z.max 1 (JS.length (emittedSignals fd ctx p))).
Proof.
  cbn [detectProfile confidence]. f_equal.
  destruct (Z.eqb_spec (JS.length (emittedSignals fd ctx p)) 0) as [->|H].
  - reflexivity.
  - unfold JS.length in *. lia.
Qed.

(** No signal at all: the divisor becomes 1 and the confidence is 0. *)
Lemma detectProfile_confidence_no_signal fd ctx p :
  emittedSignals fd ctx p = [] -> confidence (detectProfile fd ctx p) = 0.
Proof.
  intros H. rewrite detectProfile_confidence, H. vm_compute. reflexivity.
Qed.

(** C5, at the input where it fails.  On AliExpress, with canvas, WebGL and
    audio supported, no battery API, local storage available and a page
    that contacted the 18 AliExpress domains and trackers, 23 of the 40
    emitted signals are found.  The rounded percentage is round(57.5) = 58;
    [detectProfile] reports 57, because the double (23 / 40) * 100 is
    57.49999999999999. *)
Theorem detectProfile_confidence_23_of_40 :
  let sigs := emittedSignals aliexpressVisit aliexpressPage AliExpressProfile in
  JS.count found sigs = 23
  /\ JS.length sigs = 40
  /\ roundedPercentage 23 40 = 58
  /\ confidence (detectProfile aliexpressVisit aliexpressPage AliExpressProfile) = 57.
Proof.
  vm_compute. repeat split; reflexivity.
Qed.

(* ================================================================== *)
(** ** Single-profile lookup *)
(* ================================================================== *)

(** C9.  [quickDetect] returns [None] (null), and nothing else, exactly when
    no catalog entry has the requested id; for the id of a catalog entry it
    returns the result of [detectProfile] on that entry with no page
    context, a run in which every domain signal and every script signal has
    [found = false]. *)
Theorem quickDetect_lookup fd pid :
  (quickDetect fd pid = None <-> forall p, In p ALL_TARGET_PROFILES -> id p <> pid)
  /\ (forall p, In p ALL_TARGET_PROFILES -> id p = pid ->
        quickDetect fd pid = Some (detectProfile fd None p))
  /\ (forall r, quickDetect fd pid = Some r ->
        exists p, In p ALL_TARGET_PROFILES /\ id p = pid
                  /\ r = detectProfile fd None p)
  /\ (forall p s, In s (emittedSignals fd None p) ->
        type s = domain \/ type s = script -> found s = false).
Proof.
  refine (conj _ (conj _ (conj _ _))).
  - unfold quickDetect, JS.find. split.
    + intros H p Hp Hid.
      destruct (find _ _) eqn:E; [discriminate|].
      apply (find_none _ _ E) in Hp. cbv beta in Hp.
      apply String.eqb_neq in Hp. contradiction.
    + intros H. destruct (find _ _) as [p|] eqn:E; [|reflexivity].
      apply find_some in E. destruct E as [Hp Hid].
      apply String.eqb_eq in Hid. now apply H in Hp.
  - intros p Hp <-. unfold quickDetect.
    assert (E : JS.find (fun q => String.eqb (id q) (id p)) ALL_TARGET_PROFILES = Some p).
    { cbn in Hp. destruct Hp as [<-|[<-|[<-|[<-|[<-|[]]]]]]; vm_compute; reflexivity. }
    now rewrite E.
  - intros r. unfold quickDetect, JS.find.
    destruct (find _ _) as [p|] eqn:E; [|discriminate].
    intros [= <-]. apply find_some in E. destruct E as [Hp Hid].
    apply String.eqb_eq in Hid. now exists p.
  - intros p s Hs Ht. unfold emittedSignals in Hs.
    rewrite !in_app_iff in Hs. destruct Hs as [Hs|[Hs|[Hs|Hs]]].
    + now apply checkDomains_no_context in Hs.
    + now apply checkScripts_no_context in Hs.
    + apply checkFingerprintMethods_cases in Hs. destruct Hs as (Hty & _).
      rewrite Hty in Ht. destruct Ht; discriminate.
    + now apply checkStorageKeys_cases in Hs.
Qed.

(* ================================================================== *)
(** ** The aggregator *)
(* ================================================================== *)

Lemma byRiskScore_key (x y : TargetDetectionResult) :
  byRiskScore x y = riskScore y - riskScore x.
Proof. reflexivity. Qed.

Lemma detectAll_results fd ctx :
  results (detectAll fd ctx)
  = JS.sort byRiskScore (map (detectProfile fd ctx) (surfacedProfiles fd ctx)).
Proof.
  unfold surfacedProfiles. rewrite <- filter_map_comm. reflexivity.
Qed.

Lemma detectAll_results_perm fd ctx :
  Permutation (results (detectAll fd ctx))
    (map (detectProfile fd ctx) (surfacedProfiles fd ctx)).
Proof.
  rewrite detectAll_results. apply (sort_perm byRiskScore).
Qed.

Lemma detectProfile_profile fd ctx p : profile (detectProfile fd ctx p) = p.
Proof. reflexivity. Qed.

(** C2.  A result is in the results of [detectAll] exactly when it is the
    result of a catalog profile and has [detected = true] or a confidence
    above 20.  In particular a result that is not detected is left out at
    confidence 20 and kept at confidence 21. *)
Theorem detectAll_surfacing fd ctx r :
  (In r (results (detectAll fd ctx))
   <-> (exists p, In p ALL_TARGET_PROFILES /\ r = detectProfile fd ctx p)
       /\ (detected r = true \/ 20 < confidence r))
  /\ (detected r = false -> confidence r = 20 ->
      ~ In r (results (detectAll fd ctx)))
  /\ ((exists p, In p ALL_TARGET_PROFILES /\ r = detectProfile fd ctx p) ->
      detected r = false -> confidence r = 21 ->
      In r (results (detectAll fd ctx))).
Proof.
  assert (Hiff : In r (results (detectAll fd ctx))
                 <-> (exists p, In p ALL_TARGET_PROFILES /\ r = detectProfile fd ctx p)
                     /\ (detected r = true \/ 20 < confidence r)).
  { cbn [detectAll results].
    rewrite (sort_In byRiskScore), filter_In, in_map_iff.
    unfold surfaced. rewrite orb_true_iff, Z.ltb_lt.
    split; intros [(p & H1 & H2) H]; (split; [exists p|exact H]); auto. }
  refine (conj Hiff (conj _ _)).
  - intros Hd Hc Hin. apply Hiff in Hin. destruct Hin as [_ [H|H]]; [congruence|lia].
  - intros Hp Hd Hc. apply Hiff. split; [exact Hp|right; lia].
Qed.

(** C6.  The total risk score of [detectAll] is the minimum of 100 and the
    sum of the risk scores of the surfaced results; summing the scores of
    the surfaced profiles before their own cap at 100 gives the same total. *)
Theorem detectAll_totalRiskScore fd ctx :
  totalRiskScore (detectAll fd ctx)
  = Z.min 100 (sumZ (map riskScore (results (detectAll fd ctx))))
  /\ totalRiskScore (detectAll fd ctx)
     = Z.min 100 (sumZ (map (rawRiskScore fd ctx) (surfacedProfiles fd ctx))).
Proof.
  assert (H : totalRiskScore (detectAll fd ctx)
              = Z.min 100 (sumZ (map riskScore (results (detectAll fd ctx))))).
  { cbn [detectAll totalRiskScore results]. unfold JS.Math_min.
    rewrite fold_left_sum. reflexivity. }
  split; [exact H|]. rewrite H.
  rewrite (sumZ_perm riskScore _ _ (detectAll_results_perm fd ctx)), map_map.
  cbn [detectProfile riskScore]. unfold JS.Math_min.
  apply (min_sum_capped (rawRiskScore fd ctx)).
  intros p _. apply rawRiskScore_nonneg.
Qed.

(** C7.  The results of [detectAll] are in non-increasing order of risk
    score, they are the results of the surfaced profiles, and for every
    score the profiles of the results with that score come in catalog
    order: they are the sublist of the catalog, in registration order, of
    the surfaced profiles with that score. *)
Theorem detectAll_sorted_stable fd ctx :
  StronglySorted riskGe (results (detectAll fd ctx))
  /\ Permutation (results (detectAll fd ctx))
       (map (detectProfile fd ctx) (surfacedProfiles fd ctx))
  /\ forall v,
       map profile (filter (fun r => riskScore r =? v) (results (detectAll fd ctx)))
       = filter (fun p => surfaced (detectProfile fd ctx p)
                          && (riskScore (detectProfile fd ctx p) =? v))
           ALL_TARGET_PROFILES.
Proof.
  refine (conj _ (conj (detectAll_results_perm fd ctx) _)).
  - rewrite detectAll_results.
    apply (sort_sorted riskScore byRiskScore byRiskScore_key).
  - intros v. rewrite detectAll_results.
    rewrite (sort_stable riskScore byRiskScore byRiskScore_key).
    rewrite filter_map_comm, map_map. cbn [detectProfile profile].
    rewrite map_id. unfold surfacedProfiles.
    generalize ALL_TARGET_PROFILES as l.
    induction l as [|p l IH]; [reflexivity|].
    cbn [filter]. destruct (surfaced (detectProfile fd ctx p)); cbn [filter andb].
    + destruct (riskScore (detectProfile fd ctx p) =? v); now rewrite IH.
    + exact IH.
Qed.

(* ================================================================== *)
(** ** The catalog *)
(* ================================================================== *)

Lemma two_unconditional_methods fd p :
  fonts (fingerprintMethods p) = true ->
  behavioral (fingerprintMethods p) = true ->
  2 <= JS.length (checkFingerprintMethods fd p).
Proof.
  intros Hf Hb. unfold checkFingerprintMethods, JS.length, pushIf.
  rewrite Hf, Hb.
  repeat match goal with |- context [if ?c then _ else _] => destruct c end;
    cbn; lia.
Qed.

Lemma catalog_signal_total fd ctx p :
  In p ALL_TARGET_PROFILES -> JS.length (emittedSignals fd ctx p) <= 41.
Proof.
  intros Hp. rewrite emittedSignals_length.
  pose proof (checkFingerprintMethods_length fd p) as Hf.
  pose proof (proj1 (checkStorageKeys_length fd p)) as Hk.
  revert Hf Hk.
  generalize (JS.length (checkFingerprintMethods fd p)).
  generalize (JS.length (checkStorageKeys fd p)).
  intros k f Hf Hk.
  catalog_cases Hp;
    repeat match goal with
           | |- context [JS.length ?l] =>
               let n := eval vm_compute in (JS.length l) in
               change (JS.length l) with n
           end;
    lia.
Qed.

(** C10.  Every catalog profile declares fonts and behavioral, so that for
    every bundle and every page context, absent or not, [detectProfile]
    finds at least two fingerprint signals on it, gives it a risk score of
    at least 10 and a confidence above 0. *)
Theorem catalog_profile_always_has_evidence fd ctx p :
  In p ALL_TARGET_PROFILES ->
  fonts (fingerprintMethods p) = true
  /\ behavioral (fingerprintMethods p) = true
  /\ 2 <= foundOfType fingerprint (emittedSignals fd ctx p)
  /\ 10 <= riskScore (detectProfile fd ctx p)
  /\ 0 < confidence (detectProfile fd ctx p).
Proof.
  intros Hp.
  assert (Hflags : fonts (fingerprintMethods p) = true
                   /\ behavioral (fingerprintMethods p) = true)
    by (clear -Hp; catalog_cases Hp; split; reflexivity).
  destruct Hflags as [Hfonts Hbeh].
  pose proof (two_unconditional_methods fd p Hfonts Hbeh) as Htwo.
  rewrite <- checkFingerprintMethods_found in Htwo.
  destruct (foundOfType_emitted fd ctx p) as (_ & _ & Hfp & _). cbv zeta in Hfp.
  pose proof (count_nonneg found (checkDomains ctx p)) as Hd.
  pose proof (count_nonneg found (checkScripts ctx p)) as Hs.
  pose proof (count_nonneg found (checkStorageKeys fd p)) as Hk.
  refine (conj Hfonts (conj Hbeh (conj _ (conj _ _)))).
  - rewrite Hfp. exact Htwo.
  - cbn [detectProfile riskScore]. unfold JS.Math_min.
    rewrite rawRiskScore_eq. lia.
  - rewrite detectProfile_confidence.
    pose proof (catalog_signal_total fd ctx p Hp) as Htot.
    pose proof (count_le_length found (emittedSignals fd ctx p)) as Hle.
    assert (Hfound : 2 <= JS.count found (emittedSignals fd ctx p)).
    { unfold emittedSignals. rewrite !count_app. lia. }
    rewrite Z.max_r by lia.
    enough (1 <= percentage (JS.count found (emittedSignals fd ctx p))
                   (JS.length (emittedSignals fd ctx p)) <= 100) by lia.
    apply percentage_small_bounds; lia.
Qed.

Lemma catalog_profile_always_has_evidence_witness :
  In AmazonProfile ALL_TARGET_PROFILES
  /\ 2 <= foundOfType fingerprint (emittedSignals bareBrowser None AmazonProfile)
  /\ 10 <= riskScore (detectProfile bareBrowser None AmazonProfile)
  /\ 0 < confidence (detectProfile bareBrowser None AmazonProfile).
Proof.
  assert (H : In AmazonProfile ALL_TARGET_PROFILES) by (right; left; reflexivity).
  split; [exact H|].
  apply (catalog_profile_always_has_evidence bareBrowser None AmazonProfile H).
Defined.

(** On a bare browser that loaded a YouTube video, Google has 3 found
    signals out of 15: risk score 20, confidence 20, and it is left out.
    On a browser with canvas and WebGL only, Facebook has 4 found signals
    out of 19: risk score 20, confidence 21, and it is kept. *)
Lemma detectAll_surfacing_witness :
  (detected (detectProfile bareBrowser youtubePage GoogleProfile) = false
   /\ confidence (detectProfile bareBrowser youtubePage GoogleProfile) = 20
   /\ ~ In (detectProfile bareBrowser youtubePage GoogleProfile)
          (results (detectAll bareBrowser youtubePage)))
  /\ (detected (detectProfile canvasBrowser None FacebookProfile) = false
      /\ confidence (detectProfile canvasBrowser None FacebookProfile) = 21
      /\ In (detectProfile canvasBrowser None FacebookProfile)
           (results (detectAll canvasBrowser None))).
Proof.
  split.
  - assert (Hd : detected (detectProfile bareBrowser youtubePage GoogleProfile) = false)
      by (vm_compute; reflexivity).
    assert (Hc : confidence (detectProfile bareBrowser youtubePage GoogleProfile) = 20)
      by (vm_compute; reflexivity).
    refine (conj Hd (conj Hc _)).
    exact (proj1 (proj2 (detectAll_surfacing bareBrowser youtubePage _)) Hd Hc).
  - assert (Hd : detected (detectProfile canvasBrowser None FacebookProfile) = false)
      by (vm_compute; reflexivity).
    assert (Hc : confidence (detectProfile canvasBrowser None FacebookProfile) = 21)
      by (vm_compute; reflexivity).
    refine (conj Hd (conj Hc _)).
    refine (proj2 (proj2 (detectAll_surfacing canvasBrowser None _)) _ Hd Hc).
    exists FacebookProfile. split; [do 2 right; left; reflexivity|reflexivity].
Defined.

(* ================================================================== *)
(** ** Further properties: evaluators and scorer *)
(* ================================================================== *)

Lemma prefix_spec (n h : string) :
  String.prefix n h = true <-> exists post, h = n ++ post.
Proof.
  revert h. induction n as [|a n IH]; intros h.
  - split; [intros _; now exists h|intros _; now destruct h].
  - destruct h as [|b h]; cbn.
    + split; [discriminate|intros (post & H); discriminate].
    + destruct (ascii_dec a b) as [->|Hne].
      * rewrite IH. split; intros (post & H); exists post; congruence.
      * split; [discriminate|intros (post & H); congruence].
Qed.

Lemma includes_unfold (hay needle : string) :
  JS.includes hay needle
  = if String.prefix needle hay then true
    else match hay with
         | EmptyString => false
         | String _ rest => JS.includes rest needle
         end.
Proof. destruct hay; reflexivity. Qed.

(** [JS.includes] decides the occurrence of a substring. *)
Lemma includes_spec (hay needle : string) :
  JS.includes hay needle = true <-> substringOf needle hay.
Proof.
  unfold substringOf. split.
  - induction hay as [|c hay IH]; rewrite includes_unfold;
      destruct (String.prefix needle _) eqn:E.
    + intros _. apply prefix_spec in E. destruct E as (post & E).
      now exists "", post.
    + discriminate.
    + intros _. apply prefix_spec in E. destruct E as (post & E).
      now exists "", post.
    + intros H. destruct (IH H) as (pre & post & ->).
      now exists (String c pre), post.
  - intros (pre & post & ->).
    induction pre as [|c pre IH]; rewrite includes_unfold.
    + assert (E : String.prefix needle ("" ++ needle ++ post) = true)
        by (apply prefix_spec; now exists post).
      now rewrite E.
    + cbn [String.append]. rewrite IH. now destruct (String.prefix _ _).
Qed.


Lemma scriptSeen_spec ctx x :
  scriptSeen ctx x = true
  <-> exists c u, ctx = Some c /\ In u (scripts c) /\ substringOf x u.
Proof.
  unfold scriptSeen, JS.some. destruct ctx as [c|].
  - rewrite existsb_exists. split.
    + intros (d & Hd & H). apply includes_spec in H. now exists c, d.
    + intros (c' & d & [= <-] & Hd & H). exists d. now rewrite includes_spec.
  - split; [discriminate|intros (c & d & H & _); discriminate].
Qed.

Lemma checkDomains_cases ctx p s :
  In s (checkDomains ctx p) ->
  found s = domainSeen ctx (signal_name s)
  /\ ((In (signal_name s) (primaryDomains (trackingInfra p))
       /\ severity s = if found s then high else low)
      \/ (In (signal_name s) (thirdPartyTrackers (trackingInfra p))
          /\ severity s = if found s then medium else low)).
Proof.
  unfold checkDomains. intros H.
  apply in_app_or in H. destruct H as [H|H];
    apply in_map_iff in H; destruct H as (x & <- & Hx); cbn; auto.
Qed.

Lemma checkScripts_cases ctx p s :
  In s (checkScripts ctx p) ->
  found s = scriptSeen ctx (signal_name s)
  /\ In (signal_name s) (jsLibraries (trackingInfra p))
  /\ severity s = if found s then critical else low.
Proof.
  unfold checkScripts. intros H.
  apply in_map_iff in H. destruct H as (x & <- & Hx). cbn. auto.
Qed.


(** X2.  The script evaluator emits one signal per declared library, in
    order.  A signal is found exactly when some script URL of the page
    context contains its name as a substring, and it has severity critical
    exactly when it is found, low otherwise. *)
Theorem checkScripts_evidence ctx p :
  map signal_name (checkScripts ctx p) = jsLibraries (trackingInfra p)
  /\ forall s, In s (checkScripts ctx p) ->
       (found s = true
        <-> exists c u, ctx = Some c /\ In u (scripts c)
                        /\ substringOf (signal_name s) u)
       /\ (found s = true <-> severity s = critical)
       /\ (found s = false <-> severity s = low).
Proof.
  split.
  - unfold checkScripts. rewrite map_map. cbn. now rewrite map_id.
  - intros s Hs. apply checkScripts_cases in Hs. destruct Hs as (Hf & _ & Hsev).
    refine (conj _ (conj _ _)).
    + rewrite Hf. apply scriptSeen_spec.
    + rewrite Hsev. destruct (found s); split; intros; congruence.
    + rewrite Hsev. destruct (found s); split; intros; congruence.
Qed.

(** X3.  The [signals] of a result are the found domain signals, then the
    found script signals, then the fingerprint signals: no storage signal is
    ever among them, none has severity low, and their number is the number
    of found signals the confidence is computed from. *)
Theorem detectProfile_signals fd ctx p :
  signals (detectProfile fd ctx p)
  = (filter found (checkDomains ctx p) ++ filter found (checkScripts ctx p)
     ++ checkFingerprintMethods fd p)%list
  /\ JS.length (signals (detectProfile fd ctx p))
     = JS.count found (emittedSignals fd ctx p)
  /\ forall s, In s (signals (detectProfile fd ctx p)) ->
       found s = true /\ severity s <> low
       /\ (type s = domain \/ type s = script \/ type s = fingerprint).
Proof.
  assert (Heq : signals (detectProfile fd ctx p)
                = (filter found (checkDomains ctx p)
                   ++ filter found (checkScripts ctx p)
                   ++ checkFingerprintMethods fd p)%list).
  { cbn [detectProfile signals]. unfold emittedSignals. rewrite !filter_app.
    assert (Hfp : filter found (checkFingerprintMethods fd p)
                  = checkFingerprintMethods fd p).
    { apply forallb_filter_id, forallb_forall. intros s Hs.
      now apply checkFingerprintMethods_cases in Hs. }
    assert (Hst : filter found (checkStorageKeys fd p) = []).
    { pose proof (checkStorageKeys_count fd p) as H0.
      unfold JS.count, JS.length in H0.
      destruct (filter found (checkStorageKeys fd p)); [reflexivity|].
      cbn in H0. lia. }
    now rewrite Hfp, Hst, app_nil_r. }
  refine (conj Heq (conj eq_refl _)).
  intros s Hs. rewrite Heq in Hs. rewrite !in_app_iff, !filter_In in Hs.
  destruct Hs as [[Hs Hf]|[[Hs Hf]|Hs]].
  - pose proof (checkDomains_type _ _ _ Hs) as Ht.
    apply checkDomains_cases in Hs. destruct Hs as [_ Hsev]. rewrite Hf in Hsev.
    repeat split; auto. destruct Hsev as [[_ ->]|[_ ->]]; discriminate.
  - pose proof (checkScripts_type _ _ _ Hs) as Ht.
    apply checkScripts_cases in Hs. destruct Hs as (_ & _ & Hsev).
    rewrite Hf in Hsev. repeat split; auto. rewrite Hsev. discriminate.
  - apply checkFingerprintMethods_cases in Hs.
    destruct Hs as (Ht & Hf & Hc). repeat split; auto.
    destruct Hc as [H|[H|[H|[H|[H|H]]]]];
      destruct H as (_ & -> & _); discriminate.
Qed.

Lemma existsb_incl {A} (f : A -> bool) (l1 l2 : list A) :
  incl l1 l2 -> existsb f l1 = true -> existsb f l2 = true.
Proof.
  intros Hi H. apply existsb_exists in H. destruct H as (x & Hx & Hf).
  apply existsb_exists. exists x. split; [now apply Hi|exact Hf].
Qed.

Lemma domainSeen_seen ctx x :
  domainSeen ctx x = existsb (fun d => JS.includes d x) (seenDomains ctx).
Proof. now destruct ctx. Qed.

Lemma scriptSeen_seen ctx x :
  scriptSeen ctx x = existsb (fun u => JS.includes u x) (seenScripts ctx).
Proof. now destruct ctx. Qed.

Lemma observedMore_incl c1 c2 :
  observedMore c1 c2 ->
  incl (seenDomains c1) (seenDomains c2) /\ incl (seenScripts c1) (seenScripts c2).
Proof.
  destruct c1 as [a|], c2 as [b|]; cbn.
  - tauto.
  - intros [-> ->]. split; apply incl_nil_l.
  - intros _. split; apply incl_nil_l.
  - intros _. split; apply incl_nil_l.
Qed.

Lemma count_found_map_mono {A} (f g : A -> DetectionSignal) (l : list A) :
  (forall x, found (f x) = true -> found (g x) = true) ->
  JS.count found (map f l) <= JS.count found (map g l).
Proof.
  intros H. unfold JS.count, JS.length.
  induction l as [|x l IH]; cbn [map filter]; [lia|].
  specialize (H x). destruct (found (f x)), (found (g x));
    cbn [List.length]; try lia.
  all: try (discriminate H; reflexivity).
Qed.

(** X5.  Evidence is monotone in what the page context has seen: a context
    with more domains and script URLs finds at least as many domain and
    script signals, gives every profile at least the same risk score, and
    keeps every detection. *)
Theorem evidence_monotone fd c1 c2 p :
  observedMore c1 c2 ->
  JS.count found (checkDomains c1 p) <= JS.count found (checkDomains c2 p)
  /\ JS.count found (checkScripts c1 p) <= JS.count found (checkScripts c2 p)
  /\ riskScore (detectProfile fd c1 p) <= riskScore (detectProfile fd c2 p)
  /\ (detected (detectProfile fd c1 p) = true ->
      detected (detectProfile fd c2 p) = true).
Proof.
  intros H. apply observedMore_incl in H. destruct H as [Hd Hs].
  assert (Hdom : forall x, domainSeen c1 x = true -> domainSeen c2 x = true)
    by (intros x; rewrite !domainSeen_seen; now apply existsb_incl).
  assert (Hscr : forall x, scriptSeen c1 x = true -> scriptSeen c2 x = true)
    by (intros x; rewrite !scriptSeen_seen; now apply existsb_incl).
  assert (H1 : JS.count found (checkDomains c1 p)
               <= JS.count found (checkDomains c2 p)).
  { unfold checkDomains. rewrite !count_app.
    apply Z.add_le_mono; apply count_found_map_mono; intros x; cbn; apply Hdom. }
  assert (H2 : JS.count found (checkScripts c1 p)
               <= JS.count found (checkScripts c2 p)).
  { unfold checkScripts. apply count_found_map_mono. intros x; cbn; apply Hscr. }
  refine (conj H1 (conj H2 _)).
  cbn [detectProfile riskScore detected]. unfold JS.Math_min.
  rewrite !Z.leb_le, !rawRiskScore_eq. lia.
Qed.

Lemma evidence_monotone_witness :
  observedMore youtubePage googlePage
  /\ riskScore (detectProfile bareBrowser youtubePage GoogleProfile)
     <= riskScore (detectProfile bareBrowser googlePage GoogleProfile).
Proof.
  assert (H : observedMore youtubePage googlePage).
  { cbn. split; intros x Hx; cbn in *; tauto. }
  split; [exact H|].
  exact (proj1 (proj2 (proj2
           (evidence_monotone bareBrowser youtubePage googlePage GoogleProfile H)))).
Defined.

(** X6.  The engine reads nothing of a page context but its domains and
    script URLs: two contexts with the same two lists give the same result
    for every profile and the same full report, whatever their cookies and
    storage keys; and an absent context is a context that saw nothing. *)
Theorem detect_reads_domains_and_scripts fd c1 c2 :
  seenDomains c1 = seenDomains c2 ->
  seenScripts c1 = seenScripts c2 ->
  (forall p, detectProfile fd c1 p = detectProfile fd c2 p)
  /\ detectAll fd c1 = detectAll fd c2.
Proof.
  intros Hd Hs.
  assert (Hdom : forall p, checkDomains c1 p = checkDomains c2 p).
  { intros p. unfold checkDomains. f_equal; apply map_ext; intros x;
      now rewrite !domainSeen_seen, Hd. }
  assert (Hscr : forall p, checkScripts c1 p = checkScripts c2 p).
  { intros p. unfold checkScripts. apply map_ext; intros x.
    now rewrite !scriptSeen_seen, Hs. }
  assert (Hp : forall p, detectProfile fd c1 p = detectProfile fd c2 p).
  { intros p. unfold detectProfile, emittedSignals, rawRiskScore.
    now rewrite Hdom, Hscr. }
  split; [exact Hp|].
  unfold detectAll. now rewrite (map_ext _ _ Hp).
Qed.

Lemma detect_reads_domains_and_scripts_witness :
  seenDomains None = seenDomains (Some {| domains := []; scripts := [];
                                          cookies := ["datr"];
                                          localStorageKeys := ["fr"] |})
  /\ detectAll canvasBrowser None
     = detectAll canvasBrowser (Some {| domains := []; scripts := [];
                                        cookies := ["datr"];
                                        localStorageKeys := ["fr"] |}).
Proof.
  split; [reflexivity|].
  exact (proj2 (detect_reads_domains_and_scripts canvasBrowser None _
                  eq_refl eq_refl)).
Defined.

(** X7.  Without page context the risk score is 5 points per fingerprint
    signal and never exceeds 30; the profile is detected exactly when all
    six fingerprint signals are emitted.  So [quickDetect] never reports a
    score above 30. *)
Theorem no_context_score fd p :
  riskScore (detectProfile fd None p) = 5 * JS.length (checkFingerprintMethods fd p)
  /\ riskScore (detectProfile fd None p) <= 30
  /\ (detected (detectProfile fd None p) = true
      <-> JS.length (checkFingerprintMethods fd p) = 6)
  /\ forall profileId r, quickDetect fd profileId = Some r -> riskScore r <= 30.
Proof.
  assert (Hraw : forall q, rawRiskScore fd None q
                           = 5 * JS.length (checkFingerprintMethods fd q)).
  { intros q. rewrite rawRiskScore_eq, checkStorageKeys_count,
      checkFingerprintMethods_found.
    rewrite (count_none found (checkDomains None q))
      by (intros s; apply checkDomains_no_context).
    rewrite (count_none found (checkScripts None q))
      by (intros s; apply checkScripts_no_context).
    lia. }
  assert (Hscore : forall q, riskScore (detectProfile fd None q)
                             = 5 * JS.length (checkFingerprintMethods fd q)
                             /\ riskScore (detectProfile fd None q) <= 30).
  { intros q. cbn [detectProfile riskScore]. unfold JS.Math_min. rewrite Hraw.
    pose proof (checkFingerprintMethods_length fd q). lia. }
  refine (conj (proj1 (Hscore p)) (conj (proj2 (Hscore p)) (conj _ _))).
  - cbn [detectProfile detected]. rewrite Z.leb_le, Hraw.
    pose proof (checkFingerprintMethods_length fd p). lia.
  - intros profileId r. unfold quickDetect.
    destruct (JS.find _ _) as [q|]; [|discriminate].
    intros [= <-]. apply Hscore.
Qed.

(* ================================================================== *)
(** ** Further properties: the aggregated report *)
(* ================================================================== *)

Lemma find_by_id p :
  In p ALL_TARGET_PROFILES ->
  JS.find (fun q => String.eqb (id q) (id p)) ALL_TARGET_PROFILES = Some p.
Proof.
  intros Hp. catalog_cases Hp; vm_compute; reflexivity.
Qed.

Lemma results_In fd ctx r :
  In r (results (detectAll fd ctx))
  <-> exists p, In p ALL_TARGET_PROFILES
                /\ surfaced (detectProfile fd ctx p) = true
                /\ r = detectProfile fd ctx p.
Proof.
  rewrite detectAll_results, (sort_In byRiskScore), in_map_iff.
  unfold surfacedProfiles. split.
  - intros (p & <- & Hp). apply filter_In in Hp. now exists p.
  - intros (p & Hp & Hs & ->). exists p. split; [reflexivity|].
    apply filter_In. now split.
Qed.

Lemma detectAll_fields fd ctx :
  let d := detectAll fd ctx in
  overallRisk d = calculateOverallRisk (sumZ (map riskScore (results d))) (results d)
  /\ totalRiskScore d = Z.min 100 (sumZ (map riskScore (results d)))
  /\ criticalTargets d
     = map profile
         (filter (fun r => (50 <=? riskScore r)
                           || RiskLevel_eqb (riskLevel (profile r)) CRITICAL)
                 (results d))
  /\ allSignals d = flat_map (fun r => filter found (signals r)) (results d).
Proof.
  cbv zeta. unfold detectAll. cbn [overallRisk totalRiskScore criticalTargets
                                     allSignals results].
  rewrite fold_left_sum. unfold JS.Math_min. cbn [Z.add]. auto.
Qed.

Lemma result_score_nonneg fd ctx r :
  In r (results (detectAll fd ctx)) -> 0 <= riskScore r.
Proof.
  intros H. apply results_In in H. destruct H as (p & _ & _ & ->).
  cbn [detectProfile riskScore]. unfold JS.Math_min.
  pose proof (rawRiskScore_nonneg fd ctx p). lia.
Qed.

(** X4.  The reported risk score decides detection and what is surfaced:
    a result is flagged [detected] exactly when its score is 30 or more;
    every catalog profile that scores 30 or more is in the results of
    [detectAll]; and a result that scores less is only there because its
    confidence exceeds 20. *)
Theorem score_decides_detection fd ctx :
  (forall p, detected (detectProfile fd ctx p) = true
             <-> 30 <= riskScore (detectProfile fd ctx p))
  /\ (forall p, In p ALL_TARGET_PROFILES ->
                30 <= riskScore (detectProfile fd ctx p) ->
                In (detectProfile fd ctx p) (results (detectAll fd ctx)))
  /\ (forall r, In r (results (detectAll fd ctx)) ->
                riskScore r < 30 -> detected r = false /\ 20 < confidence r).
Proof.
  assert (Hd : forall p, detected (detectProfile fd ctx p) = true
                         <-> 30 <= riskScore (detectProfile fd ctx p)).
  { intros p. cbn [detectProfile detected riskScore]. unfold JS.Math_min.
    rewrite Z.leb_le. lia. }
  refine (conj Hd (conj _ _)).
  - intros p Hp Hs. apply results_In. exists p. repeat split; [exact Hp|].
    unfold surfaced. apply Hd in Hs. now rewrite Hs.
  - intros r Hr Hlt. apply results_In in Hr. destruct Hr as (p & _ & Hs & ->).
    unfold surfaced in Hs.
    destruct (detected (detectProfile fd ctx p)) eqn:E.
    + apply Hd in E. lia.
    + split; [reflexivity|]. cbn [orb] in Hs. now apply Z.ltb_lt.
Qed.

Lemma sum_ge_high (l : list TargetDetectionResult) :
  (forall r, In r l -> 0 <= riskScore r) ->
  0 <= sumZ (map riskScore l)
  /\ 50 * JS.count (fun r => 50 <=? riskScore r) l <= sumZ (map riskScore l).
Proof.
  unfold JS.count, JS.length, sumZ.
  induction l as [|r l IH]; intros H; cbn [map fold_right filter List.length].
  - lia.
  - destruct IH as [IH1 IH2]; [intros x Hx; apply H; now right|].
    pose proof (H r (or_introl eq_refl)).
    destruct (Z.leb_spec 50 (riskScore r)); cbn [List.length]; lia.
Qed.

(** A catalog profile always brings at least 10 points and 2 signals. *)
Lemma catalog_min_evidence fd ctx p :
  In p ALL_TARGET_PROFILES ->
  10 <= riskScore (detectProfile fd ctx p)
  /\ signals (detectProfile fd ctx p) <> [].
Proof.
  intros Hp.
  assert (Hflags : fonts (fingerprintMethods p) = true
                   /\ behavioral (fingerprintMethods p) = true)
    by (clear -Hp; catalog_cases Hp; split; reflexivity).
  destruct Hflags as [Hfonts Hbeh].
  pose proof (two_unconditional_methods fd p Hfonts Hbeh) as Htwo.
  pose proof (count_nonneg found (checkDomains ctx p)).
  pose proof (count_nonneg found (checkScripts ctx p)).
  pose proof (count_nonneg found (checkStorageKeys fd p)).
  split.
  - cbn [detectProfile riskScore]. unfold JS.Math_min.
    rewrite rawRiskScore_eq, checkFingerprintMethods_found. lia.
  - cbn [detectProfile signals]. intros E.
    apply (f_equal (@List.length DetectionSignal)) in E.
    assert (Hc : 2 <= JS.count found (emittedSignals fd ctx p)).
    { unfold emittedSignals. rewrite !count_app, checkFingerprintMethods_found. lia. }
    unfold JS.count, JS.length in Hc. rewrite E in Hc. cbn in Hc. lia.
Qed.

(** X8.  A full run without page context and the single-profile lookup
    agree: every result of [detectAll] is what [quickDetect] returns for
    the id of its profile. *)
Theorem quickDetect_agrees_with_detectAll fd r :
  In r (results (detectAll fd None)) ->
  quickDetect fd (id (profile r)) = Some r.
Proof.
  intros H. apply results_In in H. destruct H as (p & Hp & _ & ->).
  cbn [detectProfile profile]. unfold quickDetect.
  now rewrite (find_by_id p Hp).
Qed.

Lemma quickDetect_agrees_with_detectAll_witness :
  In (detectProfile canvasBrowser None FacebookProfile)
     (results (detectAll canvasBrowser None))
  /\ quickDetect canvasBrowser "facebook"
     = Some (detectProfile canvasBrowser None FacebookProfile).
Proof.
  assert (H : In (detectProfile canvasBrowser None FacebookProfile)
                 (results (detectAll canvasBrowser None))).
  { vm_compute. right. left. reflexivity. }
  split; [exact H|].
  exact (quickDetect_agrees_with_detectAll canvasBrowser _ H).
Defined.

(** Keeping some of the profiles of a list keeps their ids distinct. *)
Lemma kept_ids_distinct (keep : TargetProfile -> bool) (catalog : list TargetProfile) :
  NoDup (map id catalog) -> NoDup (map id (filter keep catalog)).
Proof.
  induction catalog as [|q catalog IH]; intros Hids; [constructor|].
  cbn [map filter] in *. apply NoDup_cons_iff in Hids. destruct Hids as [Hq Hrest].
  destruct (keep q); [|now apply IH].
  cbn [map]. apply NoDup_cons_iff. split; [|now apply IH].
  intros Hin. apply Hq. apply in_map_iff in Hin. destruct Hin as (q' & Heq & Hin).
  apply filter_In in Hin. apply in_map_iff. exists q'. tauto.
Qed.

(** X9.  [detectAll] returns at most one result per catalog profile: the
    ids of the profiles of its results are pairwise distinct and there are
    at most 5 results.  So the display, which cuts the list at 5 cards and
    keys them by profile id, shows every result under distinct keys. *)
Theorem results_are_distinct_profiles fd ctx :
  let d := detectAll fd ctx in
  NoDup (map (fun r => id (profile r)) (results d))
  /\ JS.length (results d) <= 5
  /\ Display.shownCards d = results d
  /\ NoDup (Display.cardKeys d).
Proof.
  cbv zeta.
  pose proof (detectAll_results_perm fd ctx) as Hperm.
  assert (Hids : NoDup (map (fun r => id (profile r)) (results (detectAll fd ctx)))).
  { apply (Permutation_NoDup
             (Permutation_sym (Permutation_map (fun r => id (profile r)) Hperm))).
    rewrite map_map. cbn [detectProfile profile].
    unfold surfacedProfiles. apply kept_ids_distinct.
    vm_compute. repeat constructor; cbn; intuition discriminate. }
  assert (Hlen : (List.length (results (detectAll fd ctx)) <= 5)%nat).
  { rewrite (Permutation_length Hperm), length_map. unfold surfacedProfiles.
    apply (filter_length_le _ ALL_TARGET_PROFILES). }
  assert (Hcards : Display.shownCards (detectAll fd ctx) = results (detectAll fd ctx))
    by (apply firstn_all2; exact Hlen).
  refine (conj Hids (conj _ (conj Hcards _))).
  - unfold JS.length. lia.
  - unfold Display.cardKeys. now rewrite Hcards.
Qed.

(** X10.  The verdict of a report follows from two things it shows: the
    number of results rated CRITICAL and the total risk score, capped as it
    is.  CRITICAL for 2 such results or a total of 80; else HIGH for 1 such
    result or a total of 50; else MEDIUM for a total of 30; else LOW.  The
    test on two results of score 50 never decides: their sum is already 100. *)
Theorem overallRisk_from_report fd ctx :
  let d := detectAll fd ctx in
  let n := criticalCount (results d) in
  overallRisk d
  = if (2 <=? n) || (80 <=? totalRiskScore d) then CRITICAL
    else if (1 <=? n) || (50 <=? totalRiskScore d) then HIGH
    else if 30 <=? totalRiskScore d then MEDIUM
    else LOW.
Proof.
  cbv zeta.
  destruct (detectAll_fields fd ctx) as (-> & -> & _). cbv zeta.
  pose proof (sum_ge_high (results (detectAll fd ctx))
                (result_score_nonneg fd ctx)) as [H0 H50].
  unfold calculateOverallRisk, criticalCount.
  set (n := JS.count _ (results (detectAll fd ctx))) in *.
  set (h := JS.count _ (results (detectAll fd ctx))) in *.
  set (S := sumZ _) in *.
  repeat match goal with
         | |- context [?a <=? ?b] => destruct (Z.leb_spec a b)
         end; cbn [orb]; try reflexivity; lia.
Qed.

Lemma criticalTargets_In fd ctx p :
  In p (criticalTargets (detectAll fd ctx))
  <-> exists r, In r (results (detectAll fd ctx)) /\ profile r = p
                /\ (50 <= riskScore r \/ riskLevel p = CRITICAL).
Proof.
  destruct (detectAll_fields fd ctx) as (_ & _ & -> & _).
  rewrite in_map_iff. split.
  - intros (r & <- & Hr). apply filter_In in Hr. destruct Hr as [Hr Hc].
    exists r. repeat split; [exact Hr|].
    apply orb_true_iff in Hc. destruct Hc as [Hc|Hc].
    + left. now apply Z.leb_le.
    + right. now destruct (riskLevel (profile r)).
  - intros (r & Hr & <- & Hc). exists r. split; [reflexivity|].
    apply filter_In. split; [exact Hr|]. apply orb_true_iff.
    destruct Hc as [Hc|Hc]; [left; now apply Z.leb_le|right; now rewrite Hc].
Qed.

Lemma count_pos_In {A} (f : A -> bool) (l : list A) (x : A) :
  In x l -> f x = true -> 1 <= JS.count f l.
Proof.
  intros Hx Hf. unfold JS.count, JS.length.
  assert (H : In x (filter f l)) by (apply filter_In; now split).
  destruct (filter f l); [contradiction|]. cbn [List.length]. lia.
Qed.

(** X11.  The critical targets are the profiles of the results that score
    50 or more or whose profile is rated CRITICAL.  Whenever there is one,
    the verdict is HIGH or CRITICAL; and every profile that
    [getProfilesByRisk] rates CRITICAL is a critical target as soon as its
    result is surfaced, whatever its score. *)
Theorem criticalTargets_verdict fd ctx :
  let d := detectAll fd ctx in
  (forall p, In p (criticalTargets d)
             <-> exists r, In r (results d) /\ profile r = p
                           /\ (50 <= riskScore r \/ riskLevel p = CRITICAL))
  /\ (criticalTargets d <> [] -> 2 <= RiskLevel_rank (overallRisk d))
  /\ (forall p, In p (getProfilesByRisk CRITICAL) ->
                In (detectProfile fd ctx p) (results d) ->
                In p (criticalTargets d)).
Proof.
  cbv zeta. refine (conj (criticalTargets_In fd ctx) (conj _ _)).
  - intros Hne.
    destruct (criticalTargets (detectAll fd ctx)) as [|p l] eqn:E; [contradiction|].
    assert (Hp : In p (criticalTargets (detectAll fd ctx)))
      by (rewrite E; now left).
    apply criticalTargets_In in Hp. destruct Hp as (r & Hr & <- & Hc).
    destruct (detectAll_fields fd ctx) as (-> & _). cbv zeta.
    pose proof (sum_ge_high (results (detectAll fd ctx))
                  (result_score_nonneg fd ctx)) as [H0 H50].
    unfold calculateOverallRisk.
    destruct Hc as [Hc|Hc].
    + pose proof (count_pos_In (fun r => 50 <=? riskScore r) _ r Hr
                    ltac:(cbv beta; now apply Z.leb_le)) as H1.
      repeat match goal with
             | |- context [?a <=? ?b] => destruct (Z.leb_spec a b)
             end; cbn [orb RiskLevel_rank]; lia.
    + pose proof (count_pos_In
                    (fun r => RiskLevel_eqb (riskLevel (profile r)) CRITICAL) _ r Hr
                    ltac:(cbv beta; now rewrite Hc)) as H1.
      repeat match goal with
             | |- context [?a <=? ?b] => destruct (Z.leb_spec a b)
             end; cbn [orb RiskLevel_rank]; lia.
  - intros p Hp Hr. apply criticalTargets_In.
    exists (detectProfile fd ctx p). repeat split; [exact Hr|].
    right. unfold getProfilesByRisk in Hp. apply filter_In in Hp.
    destruct Hp as [_ Hp]. now destruct (riskLevel p).
Qed.

Lemma result_signals_found fd ctx r :
  In r (results (detectAll fd ctx)) -> filter found (signals r) = signals r.
Proof.
  intros Hr. apply results_In in Hr. destruct Hr as (p & _ & _ & ->).
  cbn [detectProfile signals].
  apply forallb_filter_id, forallb_forall. intros s Hs.
  now apply filter_In in Hs.
Qed.

Lemma allSignals_flat fd ctx :
  allSignals (detectAll fd ctx) = flat_map signals (results (detectAll fd ctx)).
Proof.
  destruct (detectAll_fields fd ctx) as (_ & _ & _ & ->).
  pose proof (result_signals_found fd ctx) as Hid. revert Hid.
  generalize (results (detectAll fd ctx)) as l.
  induction l as [|r l IH]; intros Hid; cbn [flat_map]; [reflexivity|].
  rewrite (Hid r (or_introl eq_refl)), IH; [reflexivity|].
  intros x Hx. apply Hid. now right.
Qed.

(** X12.  [allSignals] is the concatenation, in result order, of the
    signals of the results: filtering them once more for [found] removes
    nothing, every signal listed is a found one, and their number is the
    sum of the numbers of signals of the results. *)
Theorem allSignals_are_result_signals fd ctx :
  let d := detectAll fd ctx in
  allSignals d = flat_map signals (results d)
  /\ (forall s, In s (allSignals d) ->
        found s = true /\ exists r, In r (results d) /\ In s (signals r))
  /\ JS.length (allSignals d)
     = sumZ (map (fun r => JS.length (signals r)) (results d)).
Proof.
  cbv zeta. pose proof (allSignals_flat fd ctx) as Hflat.
  refine (conj Hflat (conj _ _)).
  - intros s Hs. rewrite Hflat in Hs. apply in_flat_map in Hs.
    destruct Hs as (r & Hr & Hs). split; [|now exists r].
    rewrite <- (result_signals_found fd ctx r Hr) in Hs.
    now apply filter_In in Hs.
  - rewrite Hflat. unfold JS.length, sumZ.
    generalize (results (detectAll fd ctx)) as l.
    induction l as [|r l IH]; cbn [flat_map map fold_right]; [reflexivity|].
    rewrite length_app, <- IH. lia.
Qed.

(** X13.  A report is empty in all its parts or in none: there is no
    result exactly when the total risk score is 0, and exactly when no
    signal is listed; and then the verdict is LOW with no critical target. *)
Theorem empty_report fd ctx :
  let d := detectAll fd ctx in
  (results d = [] <-> totalRiskScore d = 0)
  /\ (results d = [] <-> allSignals d = [])
  /\ (results d = [] -> overallRisk d = LOW /\ criticalTargets d = []).
Proof.
  cbv zeta.
  destruct (detectAll_fields fd ctx) as (Hrisk & Htot & Hcrit & _).
  pose proof (allSignals_flat fd ctx) as Hall.
  cbv zeta in *.
  assert (Hmin : forall r, In r (results (detectAll fd ctx)) ->
                           10 <= riskScore r /\ signals r <> []).
  { intros r Hr. apply results_In in Hr. destruct Hr as (p & Hp & _ & ->).
    now apply catalog_min_evidence. }
  pose proof (result_score_nonneg fd ctx) as Hnn.
  revert Hrisk Htot Hcrit Hall Hmin Hnn.
  generalize (results (detectAll fd ctx)) as l.
  intros l Hrisk Htot Hcrit Hall Hmin Hnn.
  destruct l as [|r l].
  - rewrite Hrisk, Htot, Hcrit, Hall. cbn. repeat split; auto.
  - destruct (Hmin r (or_introl eq_refl)) as [H10 Hsig].
    pose proof (sum_ge_high l (fun x Hx => Hnn x (or_intror Hx))) as [H0 _].
    refine (conj _ (conj _ _)).
    + split; [discriminate|]. rewrite Htot. unfold sumZ in *.
      cbn [map fold_right]. lia.
    + split; [discriminate|]. rewrite Hall. cbn [flat_map].
      destruct (signals r); [contradiction|discriminate].
    + discriminate.
Qed.

Lemma count_cons_ge {A} (f : A -> bool) (x : A) (l : list A) :
  JS.count f l <= JS.count f (x :: l).
Proof.
  unfold JS.count, JS.length. cbn [filter].
  destruct (f x); cbn [List.length]; lia.
Qed.

(** X14.  [calculateOverallRisk] is monotone: a higher total score never
    gives a milder verdict, nor does one more result. *)
Theorem calculateOverallRisk_monotone l r t1 t2 :
  t1 <= t2 ->
  RiskLevel_rank (calculateOverallRisk t1 l)
  <= RiskLevel_rank (calculateOverallRisk t2 l)
  /\ RiskLevel_rank (calculateOverallRisk t1 l)
     <= RiskLevel_rank (calculateOverallRisk t2 (r :: l)).
Proof.
  intros Ht. unfold calculateOverallRisk.
  pose proof (count_cons_ge
                (fun r => RiskLevel_eqb (riskLevel (profile r)) CRITICAL) r l) as Hc.
  pose proof (count_cons_ge (fun r => 50 <=? riskScore r) r l) as Hh.
  revert Hc Hh.
  generalize (JS.count (fun r => RiskLevel_eqb (riskLevel (profile r)) CRITICAL) (r :: l)).
  generalize (JS.count (fun r => 50 <=? riskScore r) (r :: l)).
  generalize (JS.count (fun r => RiskLevel_eqb (riskLevel (profile r)) CRITICAL) l).
  generalize (JS.count (fun r => 50 <=? riskScore r) l).
  intros h c h' c' Hc Hh.
  split;
    repeat match goal with
           | |- context [?a <=? ?b] => destruct (Z.leb_spec a b)
           end; cbn [orb RiskLevel_rank]; lia.
Qed.

Lemma calculateOverallRisk_monotone_witness :
  30 <= 80
  /\ RiskLevel_rank (calculateOverallRisk 30 [])
     <= RiskLevel_rank (calculateOverallRisk 80 []).
Proof.
  assert (H : 30 <= 80) by lia.
  split; [exact H|].
  exact (proj1 (calculateOverallRisk_monotone []
                  (detectProfile bareBrowser None GoogleProfile) 30 80 H)).
Defined.

Lemma count_le_or {A} (f g : A -> bool) (l : list A) :
  JS.count f l <= JS.count (fun x => f x || g x) l.
Proof.
  unfold JS.count, JS.length.
  induction l as [|x l IH]; cbn [filter]; [lia|].
  destruct (f x), (g x); cbn [orb List.length]; lia.
Qed.

(** X15.  The high-risk counter of the display never exceeds the number of
    critical targets; and when it shows 2 or more, the total risk score is
    100 and the verdict CRITICAL. *)
Theorem high_risk_counter fd ctx :
  let d := detectAll fd ctx in
  Display.highRiskCount d <= JS.length (criticalTargets d)
  /\ (2 <= Display.highRiskCount d ->
      totalRiskScore d = 100 /\ overallRisk d = CRITICAL).
Proof.
  cbv zeta. unfold Display.highRiskCount.
  destruct (detectAll_fields fd ctx) as (-> & -> & -> & _). cbv zeta.
  pose proof (sum_ge_high (results (detectAll fd ctx))
                (result_score_nonneg fd ctx)) as [H0 H50].
  split.
  - unfold JS.length at 1. rewrite length_map.
    apply (count_le_or (fun r => 50 <=? riskScore r)).
  - intros H2. split; [lia|]. unfold calculateOverallRisk.
    destruct (Z.leb_spec 80 (sumZ (map riskScore (results (detectAll fd ctx)))));
      [|lia].
    now rewrite orb_true_r.
Qed.

Lemma high_risk_counter_witness :
  2 <= Display.highRiskCount (detectAll aliexpressVisit aliexpressPage)
  /\ totalRiskScore (detectAll aliexpressVisit aliexpressPage) = 100
  /\ overallRisk (detectAll aliexpressVisit aliexpressPage) = CRITICAL.
Proof.
  assert (H : 2 <= Display.highRiskCount (detectAll aliexpressVisit aliexpressPage))
    by (vm_compute; discriminate).
  split; [exact H|].
  exact (proj2 (high_risk_counter aliexpressVisit aliexpressPage) H).
Defined.

(* ================================================================== *)
(** ** Further properties: recommendations and lookups *)
(* ================================================================== *)

Lemma filter_none {A} (f : A -> bool) (l : list A) :
  (forall x, In x l -> f x = false) -> filter f l = [].
Proof.
  intros H. induction l as [|x l IH]; cbn [filter]; [reflexivity|].
  rewrite (H x (or_introl eq_refl)). apply IH. intros y Hy. apply H. now right.
Qed.

Lemma filter_length_existsb {A} (f : A -> bool) (l : list A) :
  (0 <? JS.length (filter f l)) = existsb f l.
Proof.
  unfold JS.length. induction l as [|x l IH]; cbn [filter existsb]; [reflexivity|].
  destruct (f x); [|exact IH]. cbn [List.length orb]. apply Z.ltb_lt. lia.
Qed.

(** Only found script signals are critical. *)
Lemma critical_signals_are_scripts fd ctx p :
  filter (fun s => Severity_eqb (severity s) critical && found s)
         (emittedSignals fd ctx p)
  = filter found (checkScripts ctx p).
Proof.
  unfold emittedSignals. rewrite !filter_app.
  rewrite (filter_none _ (checkDomains ctx p)).
  2:{ intros s Hs. apply checkDomains_cases in Hs. destruct Hs as [_ Hsev].
      destruct Hsev as [[_ ->]|[_ ->]]; now destruct (found s). }
  rewrite (filter_none _ (checkFingerprintMethods fd p)).
  2:{ intros s Hs. apply checkFingerprintMethods_cases in Hs.
      destruct Hs as (_ & _ & [H|[H|[H|[H|[H|H]]]]]);
        destruct H as (_ & -> & _); reflexivity. }
  rewrite (filter_none _ (checkStorageKeys fd p)).
  2:{ intros s Hs. apply checkStorageKeys_cases in Hs.
      destruct Hs as (_ & _ & -> & _). reflexivity. }
  cbn [app]. rewrite app_nil_r.
  apply filter_ext_in. intros s Hs. apply checkScripts_cases in Hs.
  destruct Hs as (_ & _ & ->). now destruct (found s).
Qed.

Lemma found_script_names ctx p :
  map signal_name (filter found (checkScripts ctx p))
  = filter (scriptSeen ctx) (jsLibraries (trackingInfra p)).
Proof.
  unfold checkScripts. rewrite filter_map_comm, map_map. cbn. apply map_id.
Qed.

(** X16.  The critical-signal summary is about scripts and nothing else:
    it is generated exactly when some declared library occurs in a script
    URL of the page, and it lists those libraries in the order of the
    profile.  Without page context it is never generated. *)
Theorem criticalRecommendation_is_about_scripts fd ctx p :
  criticalRecommendation (emittedSignals fd ctx p)
  = advisory (existsb (scriptSeen ctx) (jsLibraries (trackingInfra p)))
      ("⚠️ Критические трекеры обнаружены: "
       ++ JS.join ", " (filter (scriptSeen ctx) (jsLibraries (trackingInfra p))))
  /\ criticalRecommendation (emittedSignals fd None p) = [].
Proof.
  assert (H : forall c,
             criticalRecommendation (emittedSignals fd c p)
             = advisory (existsb (scriptSeen c) (jsLibraries (trackingInfra p)))
                 ("⚠️ Критические трекеры обнаружены: "
                  ++ JS.join ", "
                       (filter (scriptSeen c) (jsLibraries (trackingInfra p))))).
  { intros c. unfold criticalRecommendation.
    rewrite critical_signals_are_scripts, found_script_names.
    rewrite <- (filter_length_existsb (scriptSeen c)).
    unfold JS.length. rewrite <- found_script_names, length_map. reflexivity. }
  split; [apply H|]. rewrite H. clear H.
  replace (existsb (scriptSeen None) (jsLibraries (trackingInfra p))) with false;
    [reflexivity|].
  symmetry.
  induction (jsLibraries (trackingInfra p)) as [|x l IH]; [reflexivity|exact IH].
Qed.

(** X17.  [getTargetProfile] is a lookup by unique id: the id of a catalog
    profile leads back to that profile, a profile that is returned has the
    id asked for, nothing is returned exactly for the ids outside the
    catalog, and [quickDetect] is [detectProfile] without page context on
    what the lookup returns. *)
Theorem getTargetProfile_lookup :
  (forall p, In p ALL_TARGET_PROFILES -> getTargetProfile (id p) = Some p)
  /\ (forall i p, getTargetProfile i = Some p ->
                  In p ALL_TARGET_PROFILES /\ id p = i)
  /\ (forall i, getTargetProfile i = None <-> ~ In i (map id ALL_TARGET_PROFILES))
  /\ (forall fd i, quickDetect fd i
                   = option_map (detectProfile fd None) (getTargetProfile i)).
Proof.
  refine (conj find_by_id (conj _ (conj _ _))).
  - intros i p H. apply find_some in H. destruct H as [Hp Hid].
    split; [exact Hp|]. now apply String.eqb_eq.
  - intros i. unfold getTargetProfile, JS.find. split.
    + intros H Hin. apply in_map_iff in Hin. destruct Hin as (p & <- & Hp).
      apply (find_none _ _ H) in Hp. cbv beta in Hp.
      now rewrite String.eqb_refl in Hp.
    + intros H. destruct (find _ _) as [p|] eqn:E; [|reflexivity].
      apply find_some in E. destruct E as [Hp Hid].
      apply String.eqb_eq in Hid. exfalso. apply H.
      apply in_map_iff. now exists p.
  - intros fd i. unfold quickDetect, getTargetProfile.
    now destruct (JS.find _ _).
Qed.

(** X18.  A card lists the first 3 recommendations.  For a profile whose
    container, domain-block and cookie-clear countermeasures are all set,
    these are always those three advisories: the critical-signal summary
    and the advisories of the profile id are generated but never shown. *)
Theorem card_shows_countermeasures_only fd ctx p :
  useContainer (countermeasures p) = true ->
  blockDomains (countermeasures p) = true ->
  clearCookies (countermeasures p) = true ->
  Display.shownRecommendations (detectProfile fd ctx p)
  = ["Используйте Firefox Container для изоляции " ++ name p;
     "Заблокируйте домены: "
     ++ JS.join ", " (firstn 3 (primaryDomains (trackingInfra p)));
     "Регулярно очищайте cookies " ++ name p].
Proof.
  intros H1 H2 H3.
  unfold Display.shownRecommendations. cbn [detectProfile recommendations].
  unfold generateRecommendations, countermeasureRecommendations, JS.slice0.
  rewrite H1, H2, H3. reflexivity.
Qed.

Lemma card_shows_countermeasures_only_witness :
  useContainer (countermeasures TikTokProfile) = true
  /\ List.length
       (Display.shownRecommendations
          (detectProfile aliexpressVisit googlePage TikTokProfile)) = 3%nat.
Proof.
  split; [reflexivity|].
  rewrite (card_shows_countermeasures_only aliexpressVisit googlePage TikTokProfile
             eq_refl eq_refl eq_refl).
  reflexivity.
Defined.

(* ================================================================== *)
(** ** Further properties: what a result does not depend on *)
(* ================================================================== *)

(** X19.  Local storage changes neither score nor verdict of a profile:
    two bundles with the same four capability flags give the same risk
    score, detection flag, found signals and recommendations, whether local
    storage is available or not (only the confidence can differ). *)
Theorem score_ignores_storage fd fd' ctx p :
  fd_canvas fd = fd_canvas fd' ->
  fd_webgl fd = fd_webgl fd' ->
  fd_audio fd = fd_audio fd' ->
  fd_battery fd = fd_battery fd' ->
  riskScore (detectProfile fd ctx p) = riskScore (detectProfile fd' ctx p)
  /\ detected (detectProfile fd ctx p) = detected (detectProfile fd' ctx p)
  /\ signals (detectProfile fd ctx p) = signals (detectProfile fd' ctx p)
  /\ recommendations (detectProfile fd ctx p)
     = recommendations (detectProfile fd' ctx p).
Proof.
  intros H1 H2 H3 H4.
  assert (Hfp : checkFingerprintMethods fd p = checkFingerprintMethods fd' p).
  { unfold checkFingerprintMethods. now rewrite H1, H2, H3, H4. }
  assert (Hraw : rawRiskScore fd ctx p = rawRiskScore fd' ctx p).
  { now rewrite !rawRiskScore_eq, !checkStorageKeys_count, Hfp. }
  assert (Hst : forall b, filter found (checkStorageKeys b p) = []).
  { intros b. apply filter_none. intros s Hs.
    now apply checkStorageKeys_cases in Hs. }
  cbn [detectProfile riskScore detected signals recommendations].
  refine (conj _ (conj _ (conj _ _))).
  - now rewrite Hraw.
  - now rewrite Hraw.
  - unfold emittedSignals. rewrite !filter_app, !Hst, Hfp. reflexivity.
  - unfold generateRecommendations, criticalRecommendation.
    now rewrite !critical_signals_are_scripts.
Qed.

Lemma score_ignores_storage_witness :
  fd_canvas bareBrowser = fd_canvas storageOnlyBrowser
  /\ riskScore (detectProfile bareBrowser youtubePage GoogleProfile)
     = riskScore (detectProfile storageOnlyBrowser youtubePage GoogleProfile)
  /\ confidence (detectProfile bareBrowser youtubePage GoogleProfile)
     <> confidence (detectProfile storageOnlyBrowser youtubePage GoogleProfile).
Proof.
  split; [reflexivity|]. split.
  - exact (proj1 (score_ignores_storage bareBrowser storageOnlyBrowser
                    youtubePage GoogleProfile eq_refl eq_refl eq_refl eq_refl)).
  - vm_compute. discriminate.
Defined.

(** X20.  The order of the results is the only one possible: a list that
    is non-increasing in risk score and that keeps, for every score, the
    results of that score in the order of the surfaced catalog profiles is
    the list [detectAll] returns. *)
Theorem results_order_is_unique fd ctx l :
  StronglySorted riskGe l ->
  (forall v, filter (fun r => riskScore r =? v) l
             = filter (fun r => riskScore r =? v)
                 (map (detectProfile fd ctx) (surfacedProfiles fd ctx))) ->
  l = results (detectAll fd ctx).
Proof.
  intros Hs Hf. rewrite detectAll_results.
  apply (stable_sorted_unique riskScore); [exact Hs| |].
  - apply (sort_sorted riskScore byRiskScore byRiskScore_key).
  - intros v. rewrite Hf.
    symmetry. apply (sort_stable riskScore byRiskScore byRiskScore_key).
Qed.

Lemma results_order_is_unique_witness :
  map (fun r => id (profile r)) (results (detectAll canvasBrowser None))
  = ["amazon"; "facebook"; "google"; "tiktok"].
Proof.
  rewrite <- (results_order_is_unique canvasBrowser None
                (map (detectProfile canvasBrowser None)
                     (surfacedProfiles canvasBrowser None))).
  - vm_compute. reflexivity.
  - vm_compute. repeat constructor; discriminate.
  - intros v. reflexivity.
Defined.

(** X21.  On a catalog profile the confidence lies between 1 and 100, and
    it is the percentage of found signals rounded to the nearest integer
    (a half rounding up) in every case but one: 23 found signals out of 40,
    where it is 57 and not 58. *)
Theorem catalog_confidence fd ctx p :
  In p ALL_TARGET_PROFILES ->
  let a := JS.count found (emittedSignals fd ctx p) in
  let t := JS.length (emittedSignals fd ctx p) in
  1 <= confidence (detectProfile fd ctx p) <= 100
  /\ (confidence (detectProfile fd ctx p) = roundedPercentage a t
      \/ (a = 23 /\ t = 40 /\ confidence (detectProfile fd ctx p) = 57)).
Proof.
  intros Hp. cbv zeta.
  pose proof (catalog_signal_total fd ctx p Hp) as Htot.
  pose proof (count_le_length found (emittedSignals fd ctx p)) as Hle.
  assert (Hfound : 2 <= JS.count found (emittedSignals fd ctx p)).
  { assert (Hflags : fonts (fingerprintMethods p) = true
                     /\ behavioral (fingerprintMethods p) = true)
      by (clear -Hp; catalog_cases Hp; split; reflexivity).
    destruct Hflags as [Hfonts Hbeh].
    pose proof (two_unconditional_methods fd p Hfonts Hbeh) as Htwo.
    pose proof (count_nonneg found (checkDomains ctx p)).
    pose proof (count_nonneg found (checkScripts ctx p)).
    pose proof (count_nonneg found (checkStorageKeys fd p)).
    unfold emittedSignals. rewrite !count_app, checkFingerprintMethods_found. lia. }
  rewrite detectProfile_confidence, Z.max_r by lia.
  split.
  - apply percentage_small_bounds; lia.
  - apply percentage_small; lia.
Qed.

Lemma catalog_confidence_witness :
  In AliExpressProfile ALL_TARGET_PROFILES
  /\ 1 <= confidence (detectProfile aliexpressVisit aliexpressPage AliExpressProfile)
     <= 100.
Proof.
  assert (H : In AliExpressProfile ALL_TARGET_PROFILES) by (left; reflexivity).
  split; [exact H|].
  exact (proj1 (catalog_confidence aliexpressVisit aliexpressPage AliExpressProfile H)).
Defined.
